(** * Browser-History-Parser: the artifact decoding engine of [main.py]

    A shallow embedding of the epoch converters ([chrome_to_utc],
    [firefox_to_utc], [safari_to_utc]), the schema detector ([detect_kind])
    and the record extractor ([query_rows]) of [main.py], together with the
    part of the Python runtime ([int], [float], [datetime], [timedelta]) and
    of SQLite (URI file names, [LIMIT], [datetime(..., 'unixepoch')]) that
    these functions rest on. *)

From Stdlib Require Import ZArith Lia Bool List Ascii String.
From Stdlib Require Import Floats.SpecFloat.
From stdpp Require Import base option list gmap strings.

Local Open Scope string_scope.
Local Open Scope Z_scope.

(** ** Exceptions and results

    The exceptions of the Python runtime that the modelled code can meet.
    A computation that may raise returns a [result]. *)

Inductive exn : Type :=
  | TypeError
  | ValueError
  | OverflowError
  | OperationalError
  | DatabaseError
  | IntegrityError.

Inductive result (A : Type) : Type :=
  | Ok (a : A)
  | Raise (e : exn).
Arguments Ok {A} a.
Arguments Raise {A} e.

#[global] Instance result_ret : MRet result := fun A a => Ok a.

#[global] Instance result_bind : MBind result := fun A B k r =>
  match r with
  | Ok a => k a
  | Raise e => Raise e
  end.

Definition raises {A : Type} (r : result A) : Prop :=
  match r with
  | Ok _ => False
  | Raise _ => True
  end.

(** ** Values

    The values that cross the boundary between SQLite and Python: the
    [sqlite3] module hands NULL over as [None], INTEGER as [int], REAL as
    [float], TEXT as [str] and BLOB as [bytes].  Floats are IEEE 754
    binary64 numbers, in the [spec_float] representation.  Text is a string
    of bytes. *)

Inductive value : Type :=
  | VNone
  | VInt (z : Z)
  | VFloat (f : spec_float)
  | VStr (s : string)
  | VBytes (s : string).

(** ** Characters *)

Definition code (c : ascii) : Z := Z.of_N (N_of_ascii c).

Definition is_upper (c : ascii) : bool := (65 <=? code c) && (code c <=? 90).

Definition lower_char (c : ascii) : ascii :=
  if is_upper c then ascii_of_N (N_of_ascii c + 32) else c.

(** [str.lower] on ASCII text. *)
Fixpoint lower (s : string) : string :=
  match s with
  | EmptyString => EmptyString
  | String c r => String (lower_char c) (lower r)
  end.

(** ** Browser families

    The four strings [detect_kind] can return. *)

Inductive kind : Type := chromium | firefox | safari | unknown.

Definition kind_name (k : kind) : string :=
  match k with
  | chromium => "chromium"
  | firefox => "firefox"
  | safari => "safari"
  | unknown => "unknown"
  end.

(** The classification of [detect_kind], lines 48-52, on the set [names]
    of lower-cased table names. *)
Definition classify (names : gset string) : kind :=
  if bool_decide (({["urls"; "visits"]} : gset string) ⊆ names) then chromium
  else if bool_decide (({["moz_places"; "moz_historyvisits"]} : gset string) ⊆ names) then firefox
  else if bool_decide (({["history_items"; "history_visits"]} : gset string) ⊆ names) then safari
  else if bool_decide ("downloads" ∈ names) then chromium
  else unknown.

(** The set comprehension of line 47: [{row[0].lower() for row in ...}]. *)
Definition lowered_names (rows : list string) : gset string :=
  list_to_set (lower <$> rows).

(** ** Python's [int] and [float] constructors

    [main.py] calls [int(...)] and [float(...)] on whatever the database
    column holds.  Text is covered for ASCII: a character outside ASCII is
    taken as not part of a number. *)

Module Py.

Definition is_digit (c : ascii) : bool := (48 <=? code c) && (code c <=? 57).

Definition digit_val (c : ascii) : Z := code c - 48.

(** White space stripped by [int] and [float]: [str] follows
    [str.isspace], [bytes] the C locale. *)
Definition is_space_str (c : ascii) : bool :=
  ((9 <=? code c) && (code c <=? 13)) || ((28 <=? code c) && (code c <=? 32)).

Definition is_space_bytes (c : ascii) : bool :=
  ((9 <=? code c) && (code c <=? 13)) || (code c =? 32).

Fixpoint lstrip (sp : ascii -> bool) (s : string) : string :=
  match s with
  | String c r => if sp c then lstrip sp r else s
  | EmptyString => EmptyString
  end.

Fixpoint rstrip (sp : ascii -> bool) (s : string) : string :=
  match s with
  | String c r =>
      match rstrip sp r with
      | EmptyString => if sp c then EmptyString else String c EmptyString
      | r' => String c r'
      end
  | EmptyString => EmptyString
  end.

Definition strip (sp : ascii -> bool) (s : string) : string :=
  rstrip sp (lstrip sp s).

(** An underscore is allowed only between two digits; [prev] is the
    character before [s].  Returns the text without its underscores. *)
Fixpoint drop_underscores (prev : ascii) (s : string) : option string :=
  match s with
  | EmptyString => if Ascii.eqb prev "_" then None else Some EmptyString
  | String c r =>
      if Ascii.eqb c "_" then
        if is_digit prev then drop_underscores c r else None
      else if Ascii.eqb prev "_" && negb (is_digit c) then None
      else option_map (String c) (drop_underscores c r)
  end.

(** A leading sign: [(negative, rest)]. *)
Definition split_sign (s : string) : bool * string :=
  match s with
  | String "-" r => (true, r)
  | String "+" r => (false, r)
  | _ => (false, s)
  end.

(** The longest prefix of decimal digits: its value when read after the
    digits of [acc], how many digits it has, and the rest. *)
Fixpoint digits (acc : Z) (n : Z) (s : string) : Z * Z * string :=
  match s with
  | String c r => if is_digit c then digits (10 * acc + digit_val c) (n + 1) r
                  else (acc, n, s)
  | EmptyString => (acc, n, s)
  end.

(** [int(text)] in base 10. *)
Definition int_of_text (sp : ascii -> bool) (s : string) : result Z :=
  match drop_underscores " " (strip sp s) with
  | None => Raise ValueError
  | Some t =>
      let '(neg, body) := split_sign t in
      match digits 0 0 body with
      | (z, n, EmptyString) =>
          if 0 <? n then Ok (if neg then - z else z) else Raise ValueError
      | _ => Raise ValueError
      end
  end.

(** *** binary64 *)

Definition prec : Z := 53.
Definition emax : Z := 1024.

(** The float nearest to the integer [z], ties to even. *)
Definition float_of_Z (z : Z) : spec_float := binary_normalize prec emax z 0 false.

(** The float nearest to [m * 10 ^ e10] (with [0 <= m]), ties to even. *)
Definition float_of_decimal (neg : bool) (m e10 : Z) : spec_float :=
  match m with
  | Zpos p =>
      if 0 <=? e10 then binary_round prec emax neg (Pos.mul p (Z.to_pos (10 ^ e10))) 0
      else
        let '(q, e, l) := SFdiv_core_binary prec emax (Zpos p) 0 (10 ^ (- e10)) 0 in
        binary_round_aux prec emax neg q e l
  | _ => S754_zero neg
  end.

Definition is_finite (f : spec_float) : bool :=
  match f with
  | S754_zero _ | S754_finite _ _ _ => true
  | _ => false
  end.

(** The integer part of a finite float, towards zero. *)
Definition trunc (f : spec_float) : Z :=
  match f with
  | S754_finite s m e =>
      let a := if 0 <=? e then Zpos m * 2 ^ e else Zpos m / 2 ^ (- e) in
      if s then - a else a
  | _ => 0
  end.

(** The fractional part of a finite float, with the sign of the float
    (C's [modf]); it is exact. *)
Definition frac (f : spec_float) : spec_float :=
  match f with
  | S754_finite s m e =>
      if 0 <=? e then S754_zero s
      else match Zpos m mod 2 ^ (- e) with
           | Zpos r => binary_round prec emax s r e
           | _ => S754_zero s
           end
  | _ => f
  end.

Definition is_zero (f : spec_float) : bool :=
  match f with
  | S754_zero _ => true
  | _ => false
  end.

(** [PyLong_FromDouble]: the integer part, or an exception for NaN and
    infinities. *)
Definition long_of_float (f : spec_float) : result Z :=
  match f with
  | S754_nan => Raise ValueError
  | S754_infinity _ => Raise OverflowError
  | _ => Ok (trunc f)
  end.

Definition string_ieq (s t : string) : bool := String.eqb (lower s) t.

(** The exponent part of a float literal: nothing, or [e], an optional
    sign and at least one digit, up to the end of the text. *)
Definition exponent_of_text (s : string) : option Z :=
  match s with
  | EmptyString => Some 0
  | String c r =>
      if Ascii.eqb (lower_char c) "e" then
        let '(neg, body) := split_sign r in
        match digits 0 0 body with
        | (z, n, EmptyString) => if 0 <? n then Some (if neg then - z else z) else None
        | _ => None
        end
      else None
  end.

(** [float(text)]: [inf], [infinity], [nan] in any case, or a decimal
    literal with an optional fraction and exponent. *)
Definition float_of_text (sp : ascii -> bool) (s : string) : result spec_float :=
  match drop_underscores " " (strip sp s) with
  | None => Raise ValueError
  | Some t =>
      let '(neg, body) := split_sign t in
      if string_ieq body "inf" || string_ieq body "infinity" then Ok (S754_infinity neg)
      else if string_ieq body "nan" then Ok S754_nan
      else
        let '(i, ni, r1) := digits 0 0 body in
        let '(m, nf, r2) :=
          match r1 with
          | String "." r => digits i 0 r
          | _ => (i, 0, r1)
          end in
        if 0 <? ni + nf then
          match exponent_of_text r2 with
          | Some e => Ok (float_of_decimal neg m (e - nf))
          | None => Raise ValueError
          end
        else Raise ValueError
  end.

(** [int(v)]. *)
Definition int (v : value) : result Z :=
  match v with
  | VNone => Raise TypeError
  | VInt z => Ok z
  | VFloat f => long_of_float f
  | VStr s => int_of_text is_space_str s
  | VBytes s => int_of_text is_space_bytes s
  end.

(** [float(v)]. *)
Definition float (v : value) : result spec_float :=
  match v with
  | VNone => Raise TypeError
  | VInt z =>
      let f := float_of_Z z in
      if is_finite f then Ok f else Raise OverflowError
  | VFloat f => Ok f
  | VStr s => float_of_text is_space_str s
  | VBytes s => float_of_text is_space_bytes s
  end.

(** [a > b] on floats: false when either is NaN. *)
Definition gt (a b : spec_float) : bool := SFltb b a.

Definition div (a b : spec_float) : spec_float := SFdiv prec emax a b.
Definition mul (a b : spec_float) : spec_float := SFmul prec emax a b.

End Py.

(** ** Python's [datetime] and [timedelta]

    After CPython's [_datetimemodule.c]: the proleptic Gregorian calendar
    with years 1 to 9999, durations normalised to days, seconds and
    microseconds with at most 999999999 days on either side. *)

Module Datetime.

Record datetime : Type := mk_datetime {
  year : Z; month : Z; day : Z;
  hour : Z; minute : Z; second : Z; microsecond : Z
}.

Record timedelta : Type := mk_timedelta {
  td_days : Z; td_seconds : Z; td_microseconds : Z
}.

Definition MINYEAR : Z := 1.
Definition MAXYEAR : Z := 9999.
Definition MAXORDINAL : Z := 3652059.
Definition MAX_DELTA_DAYS : Z := 999999999.

Definition is_leap (y : Z) : bool :=
  (y mod 4 =? 0) && (negb (y mod 100 =? 0) || (y mod 400 =? 0)).

Definition days_in_month_table (m : Z) : Z :=
  match m with
  | 1 => 31 | 2 => 28 | 3 => 31 | 4 => 30 | 5 => 31 | 6 => 30
  | 7 => 31 | 8 => 31 | 9 => 30 | 10 => 31 | 11 => 30 | 12 => 31
  | _ => 0
  end.

Definition days_before_month_table (m : Z) : Z :=
  match m with
  | 1 => 0 | 2 => 31 | 3 => 59 | 4 => 90 | 5 => 120 | 6 => 151
  | 7 => 181 | 8 => 212 | 9 => 243 | 10 => 273 | 11 => 304 | 12 => 334
  | _ => 0
  end.

Definition days_in_month (y m : Z) : Z :=
  if (m =? 2) && is_leap y then 29 else days_in_month_table m.

Definition days_before_month (y m : Z) : Z :=
  days_before_month_table m + (if (2 <? m) && is_leap y then 1 else 0).

Definition days_before_year (y : Z) : Z :=
  let p := y - 1 in
  if 0 <=? p then p * 365 + p / 4 - p / 100 + p / 400 else -366.

(** Ordinal of a date: 1 is 0001-01-01. *)
Definition ymd_to_ord (y m d : Z) : Z :=
  days_before_year y + days_before_month y m + d.

Definition DI4Y : Z := 1461.
Definition DI100Y : Z := 36524.
Definition DI400Y : Z := 146097.

Definition ord_to_ymd (ordinal : Z) : Z * Z * Z :=
  let o := ordinal - 1 in
  let n400 := o / DI400Y in
  let n := o mod DI400Y in
  let n100 := n / DI100Y in
  let n := n mod DI100Y in
  let n4 := n / DI4Y in
  let n := n mod DI4Y in
  let n1 := n / 365 in
  let n := n mod 365 in
  let y := n400 * 400 + 1 + n100 * 100 + n4 * 4 + n1 in
  if (n1 =? 4) || (n100 =? 4) then (y - 1, 12, 31)
  else
    let leapyear := (n1 =? 3) && (negb (n4 =? 24) || (n100 =? 3)) in
    let m := Z.shiftr (n + 50) 5 in
    let preceding :=
      days_before_month_table m + (if (2 <? m) && leapyear then 1 else 0) in
    if n <? preceding
    then (y, m - 1, n - (preceding - days_in_month y (m - 1)) + 1)
    else (y, m, n - preceding + 1).

(** [normalize_y_m_d]: the month is in range, the day may not be. *)
Definition normalize_y_m_d (y m d : Z) : result (Z * Z * Z) :=
  let dim := days_in_month y m in
  let in_years (r : Z * Z * Z) : result (Z * Z * Z) :=
    let '(y', _, _) := r in
    if (MINYEAR <=? y') && (y' <=? MAXYEAR) then Ok r else Raise OverflowError in
  if (d <? 1) || (dim <? d) then
    if d =? 0 then
      if 0 <? m - 1 then in_years (y, m - 1, days_in_month y (m - 1))
      else in_years (y - 1, 12, 31)
    else if d =? dim + 1 then
      if 12 <? m + 1 then in_years (y + 1, 1, 1) else in_years (y, m + 1, 1)
    else
      let ordinal := ymd_to_ord y m 1 + d - 1 in
      if (ordinal <? 1) || (MAXORDINAL <? ordinal) then Raise OverflowError
      else Ok (ord_to_ymd ordinal)
  else in_years (y, m, d).

(** [normalize_pair]: carry from [lo] into [hi]. *)
Definition normalize_pair (hi lo factor : Z) : Z * Z :=
  if (lo <? 0) || (factor <=? lo) then (hi + lo / factor, lo mod factor)
  else (hi, lo).

(** [microseconds_to_delta]: a whole number of microseconds as a
    normalised duration. *)
Definition microseconds_to_delta (us : Z) : result timedelta :=
  let s := us / 1000000 in
  let d := s / 86400 in
  if (- MAX_DELTA_DAYS <=? d) && (d <=? MAX_DELTA_DAYS)
  then Ok (mk_timedelta d (s mod 86400) (us mod 1000000))
  else Raise OverflowError.

(** [timedelta(microseconds=n)] for an [int]. *)
Definition timedelta_microseconds (n : Z) : result timedelta :=
  microseconds_to_delta n.

Definition half : spec_float := S754_finite false 4503599627370496 (-53).

(** The whole number of microseconds nearest to the left-over fraction
    [l] (with [|l| < 1]) when added to [x], ties to the even sum. *)
Definition round_leftover (x : Z) (l : spec_float) : Z :=
  let unit := match l with
              | S754_finite true _ _ => -1
              | _ => 1
              end in
  match SFcompare (SFabs l) half with
  | Some Gt => unit
  | Some Eq => if Z.odd x then unit else 0
  | _ => 0
  end.

(** [timedelta(seconds=f)] for a [float]: the whole seconds are kept
    exact, the fraction is scaled to microseconds in floating point and
    what is left over is rounded. *)
Definition timedelta_seconds (f : spec_float) : result timedelta :=
  whole ← Py.long_of_float f;
  let x := whole * 1000000 in
  let fr := Py.frac f in
  if Py.is_zero fr then microseconds_to_delta x
  else
    let scaled := Py.mul (Py.float_of_Z 1000000) fr in
    let x := x + Py.trunc scaled in
    let leftover := Py.frac scaled in
    if Py.is_zero leftover then microseconds_to_delta x
    else microseconds_to_delta (x + round_leftover x leftover).

(** [datetime + timedelta]. *)
Definition add (dt : datetime) (td : timedelta) : result datetime :=
  let d := day dt + td_days td in
  let s := second dt + td_seconds td in
  let us := microsecond dt + td_microseconds td in
  let '(s, us) := normalize_pair s us 1000000 in
  let '(mi, s) := normalize_pair (minute dt) s 60 in
  let '(h, mi) := normalize_pair (hour dt) mi 60 in
  let '(d, h) := normalize_pair d h 24 in
  '(y, m, d) ← normalize_y_m_d (year dt) (month dt) d;
  Ok (mk_datetime y m d h mi s us).

(** *** [isoformat] *)

Definition digit_char (n : Z) : ascii := ascii_of_N (Z.to_N (48 + n mod 10)).

(** [w] decimal digits of [n], zero padded: [%0wd] for [0 <= n < 10 ^ w]. *)
Fixpoint zfill (w : nat) (n : Z) : string :=
  match w with
  | O => EmptyString
  | S w' => zfill w' (n / 10) +:+ String (digit_char n) EmptyString
  end.

(** [isoformat()] of an aware datetime in UTC: the fraction is left out
    when the microseconds are zero; the offset is [+00:00]. *)
Definition isoformat (dt : datetime) : string :=
  zfill 4 (year dt) +:+ "-" +:+ zfill 2 (month dt) +:+ "-" +:+ zfill 2 (day dt)
  +:+ "T" +:+ zfill 2 (hour dt) +:+ ":" +:+ zfill 2 (minute dt) +:+ ":"
  +:+ zfill 2 (second dt)
  +:+ (if microsecond dt =? 0 then "" else "." +:+ zfill 6 (microsecond dt))
  +:+ "+00:00".

End Datetime.

Import Datetime.

(** ** main.py: the epoch converters (lines 19-40) *)

Definition EPOCH_CHROMIUM : datetime := mk_datetime 1601 1 1 0 0 0 0.
Definition EPOCH_UNIX : datetime := mk_datetime 1970 1 1 0 0 0 0.
Definition EPOCH_COCOA : datetime := mk_datetime 2001 1 1 0 0 0 0.

(** [try: return e / except: return ""]. *)
Definition try_or_empty (r : result string) : string :=
  match r with
  | Ok s => s
  | Raise _ => ""
  end.

(** The body of the [try] of [chrome_to_utc]. *)
Definition chrome_to_utc_body (us_since_1601 : value) : result string :=
  n ← Py.int us_since_1601;
  td ← timedelta_microseconds n;
  dt ← add EPOCH_CHROMIUM td;
  Ok (isoformat dt).

Definition chrome_to_utc (us_since_1601 : value) : string :=
  try_or_empty (chrome_to_utc_body us_since_1601).

Definition firefox_to_utc_body (us_since_unix : value) : result string :=
  n ← Py.int us_since_unix;
  td ← timedelta_microseconds n;
  dt ← add EPOCH_UNIX td;
  Ok (isoformat dt).

Definition firefox_to_utc (us_since_unix : value) : string :=
  try_or_empty (firefox_to_utc_body us_since_unix).

(** The constants [1e14], [1e11], [1e10], [1e9], [1e6], [1e3]. *)
Definition f1e14 : spec_float := Eval vm_compute in Py.float_of_decimal false 1 14.
Definition f1e11 : spec_float := Eval vm_compute in Py.float_of_decimal false 1 11.
Definition f1e10 : spec_float := Eval vm_compute in Py.float_of_decimal false 1 10.
Definition f1e9 : spec_float := Eval vm_compute in Py.float_of_decimal false 1 9.
Definition f1e6 : spec_float := Eval vm_compute in Py.float_of_decimal false 1 6.
Definition f1e3 : spec_float := Eval vm_compute in Py.float_of_decimal false 1 3.

(** Lines 35-38: the seconds of a Safari value. *)
Definition safari_seconds (val : spec_float) : spec_float :=
  if Py.gt val f1e14 then Py.div val f1e9
  else if Py.gt val f1e11 then Py.div val f1e6
  else if Py.gt val f1e10 then Py.div val f1e3
  else val.

Definition safari_to_utc_body (val : value) : result string :=
  val ← Py.float val;
  let seconds := safari_seconds val in
  td ← timedelta_seconds seconds;
  dt ← add EPOCH_COCOA td;
  Ok (isoformat dt).

Definition safari_to_utc (val : value) : string :=
  try_or_empty (safari_to_utc_body val).


(** ** Reading an ISO-8601 UTC timestamp

    The reference against which the converters' output is read back: the
    extended format [YYYY-MM-DDTHH:MM:SS[.ffffff]] followed by the UTC
    designator [+00:00] or [Z], and the instant it denotes, counted in
    microseconds from 1970-01-01T00:00:00Z with the usual closed formula
    for days of the proleptic Gregorian calendar. *)

Module Iso8601.

(** Days from 1970-01-01 to the civil date [y]-[m]-[d]. *)
Definition days_from_civil (y m d : Z) : Z :=
  let y' := if m <=? 2 then y - 1 else y in
  let era := y' / 400 in
  let yoe := y' - era * 400 in
  let doy := (153 * (if 2 <? m then m - 3 else m + 9) + 2) / 5 + d - 1 in
  let doe := yoe * 365 + yoe / 4 - yoe / 100 + doy in
  era * 146097 + doe - 719468.

Definition leap_year (y : Z) : bool :=
  (y mod 4 =? 0) && (negb (y mod 100 =? 0) || (y mod 400 =? 0)).

Definition month_length (y m : Z) : Z :=
  if m =? 2 then (if leap_year y then 29 else 28)
  else if (m =? 4) || (m =? 6) || (m =? 9) || (m =? 11) then 30
  else 31.

(** Exactly [w] decimal digits, read after the digits of [acc]. *)
Fixpoint read_digits (w : nat) (acc : Z) (s : string) : option (Z * string) :=
  match w with
  | O => Some (acc, s)
  | S w' =>
      match s with
      | String c r =>
          if Py.is_digit c then read_digits w' (10 * acc + Py.digit_val c) r
          else None
      | EmptyString => None
      end
  end.

Definition expect (c : ascii) (s : string) : option string :=
  match s with
  | String c' r => if Ascii.eqb c c' then Some r else None
  | EmptyString => None
  end.

(** The optional fraction of six digits. *)
Definition read_fraction (s : string) : option (Z * string) :=
  match s with
  | String "." r => read_digits 6 0 r
  | _ => Some (0, s)
  end.

Definition is_utc_designator (s : string) : bool :=
  String.eqb s "+00:00" || String.eqb s "Z".

Definition fields_ok (y mo d h mi s : Z) : bool :=
  (1 <=? mo) && (mo <=? 12) && (1 <=? d) && (d <=? month_length y mo)
  && (h <? 24) && (mi <? 60) && (s <? 60).

(** The fields of a timestamp, or [None] when the text is not one. *)
Definition parse (s : string) : option datetime :=
  '(y, s) ← read_digits 4 0 s;
  s ← expect "-" s;
  '(mo, s) ← read_digits 2 0 s;
  s ← expect "-" s;
  '(d, s) ← read_digits 2 0 s;
  s ← expect "T" s;
  '(h, s) ← read_digits 2 0 s;
  s ← expect ":" s;
  '(mi, s) ← read_digits 2 0 s;
  s ← expect ":" s;
  '(sec, s) ← read_digits 2 0 s;
  '(us, s) ← read_fraction s;
  if is_utc_designator s && fields_ok y mo d h mi sec
  then Some (mk_datetime y mo d h mi sec us)
  else None.

(** Microseconds from 1970-01-01T00:00:00Z to the instant of the fields. *)
Definition unix_microseconds (dt : datetime) : Z :=
  ((days_from_civil (year dt) (month dt) (day dt) * 86400
    + hour dt * 3600 + minute dt * 60 + second dt) * 1000000)
  + microsecond dt.

(** The instant a text denotes, when it is a timestamp. *)
Definition instant (s : string) : option Z := unix_microseconds <$> parse s.

Definition valid (s : string) : Prop := is_Some (parse s).

(** 1601-01-01T00:00:00Z and 2001-01-01T00:00:00Z on that scale. *)
Definition chromium_epoch : Z := -11644473600000000.
Definition cocoa_epoch : Z := 978307200000000.

End Iso8601.



(** ** SQLite as [main.py] uses it

    Database files, the URI file names of [sqlite3.connect(..., uri=True)],
    the comparison of stored values, [LIMIT], integer and real arithmetic,
    and [datetime(x, 'unixepoch')]. *)

Module Sqlite.

(** *** Files *)

Record table : Type := mk_table {
  t_name : string;
  t_columns : list string;
  t_rows : list (list value)
}.

(** A file holds a database or something else. *)
Inductive file : Type :=
  | Database (tables : list table)
  | NotADatabase.

Abbreviation filesystem := (gmap string file).

(** *** URI file names *)

Definition OPEN_READONLY : Z := 1.
Definition OPEN_READWRITE : Z := 2.
Definition OPEN_CREATE : Z := 4.
Definition OPEN_MEMORY : Z := 128.

Definition is_xdigit (c : ascii) : bool :=
  Py.is_digit c
  || ((97 <=? code (lower_char c)) && (code (lower_char c) <=? 102)).

Definition hex_val (c : ascii) : Z :=
  if Py.is_digit c then code c - 48 else code (lower_char c) - 87.

(** The parts of a URI: the file name, the name of a query parameter,
    its value. *)
Inductive part : Type := FileName | OptName | OptValue.

(** While reading a URI: in a part, skipping what is left of a part after
    [%00], or skipping a parameter whose name is empty. *)
Inductive mode : Type :=
  | Plain (p : part)
  | SkipPart (p : part)
  | SkipOption.

Record parsed : Type := mk_parsed {
  u_file : string;
  u_options : list (string * string);
  u_name : string;
  u_value : string
}.

Definition snoc (s : string) (c : ascii) : string := s +:+ String c EmptyString.

Definition push (p : part) (c : ascii) (a : parsed) : parsed :=
  match p with
  | FileName => mk_parsed (snoc (u_file a) c) (u_options a) (u_name a) (u_value a)
  | OptName => mk_parsed (u_file a) (u_options a) (snoc (u_name a) c) (u_value a)
  | OptValue => mk_parsed (u_file a) (u_options a) (u_name a) (snoc (u_value a) c)
  end.

(** The parameter being read is complete. *)
Definition close_option (a : parsed) : parsed :=
  mk_parsed (u_file a) (u_options a ++ [(u_name a, u_value a)]) "" "".

Definition ends_part (p : part) (c : ascii) : bool :=
  match p with
  | FileName => Ascii.eqb c "?"
  | OptName => Ascii.eqb c "=" || Ascii.eqb c "&"
  | OptValue => Ascii.eqb c "&"
  end.

(** One character [c] that is not part of an escape, read in part [p]. *)
Definition step (p : part) (c : ascii) (a : parsed) : mode * parsed :=
  if ends_part p c then
    match p with
    | FileName => (Plain OptName, a)
    | OptName =>
        if String.eqb (u_name a) "" then
          (if Ascii.eqb c "&" then Plain OptName else SkipOption, a)
        else if Ascii.eqb c "&" then (Plain OptName, close_option a)
        else (Plain OptValue, a)
    | OptValue => (Plain OptName, close_option a)
    end
  else (Plain p, push p c a).

Definition finish (m : mode) (a : parsed) : parsed :=
  match m with
  | Plain OptName | SkipPart OptName =>
      if String.eqb (u_name a) "" then a else close_option a
  | Plain OptValue | SkipPart OptValue => close_option a
  | _ => a
  end.

(** The text after the scheme and authority, up to the fragment. *)
Fixpoint scan (m : mode) (a : parsed) (s : string) : parsed :=
  match s with
  | EmptyString => finish m a
  | String c r =>
      if Ascii.eqb c "#" then finish m a
      else
        match m with
        | SkipOption => scan (if Ascii.eqb c "&" then Plain OptName else SkipOption) a r
        | SkipPart p =>
            if ends_part p c then let '(m', a') := step p c a in scan m' a' r
            else scan (SkipPart p) a r
        | Plain p =>
            match r with
            | String h1 (String h2 r') =>
                if Ascii.eqb c "%" && is_xdigit h1 && is_xdigit h2 then
                  let octet := 16 * hex_val h1 + hex_val h2 in
                  if octet =? 0 then scan (SkipPart p) a r'
                  else scan (Plain p) (push p (ascii_of_N (Z.to_N octet)) a) r'
                else let '(m', a') := step p c a in scan m' a' r
            | _ => let '(m', a') := step p c a in scan m' a' r
            end
        end
  end.

(** The authority after [file://], up to the next [/]. *)
Fixpoint split_authority (s : string) : string * string :=
  match s with
  | String c r =>
      if Ascii.eqb c "/" then (EmptyString, s)
      else let '(au, rest) := split_authority r in (String c au, rest)
  | EmptyString => (EmptyString, EmptyString)
  end.

Definition mode_flags (v : string) : option Z :=
  if String.eqb v "ro" then Some OPEN_READONLY
  else if String.eqb v "rw" then Some OPEN_READWRITE
  else if String.eqb v "rwc" then Some (Z.lor OPEN_READWRITE OPEN_CREATE)
  else if String.eqb v "memory" then Some OPEN_MEMORY
  else None.

Definition access_mask : Z :=
  Z.lor (Z.lor OPEN_READONLY OPEN_READWRITE) (Z.lor OPEN_CREATE OPEN_MEMORY).

(** The [mode] parameters in their order: a mode may not ask for more
    than the flags allow at that point.  Other parameters leave the
    flags alone. *)
Fixpoint apply_options (opts : list (string * string)) (flags : Z) : result Z :=
  match opts with
  | [] => Ok flags
  | (name, v) :: rest =>
      if String.eqb name "mode" then
        match mode_flags v with
        | None => Raise OperationalError
        | Some m =>
            if Z.land access_mask flags <? Z.land m (Z.lnot OPEN_MEMORY)
            then Raise OperationalError
            else apply_options rest (Z.lor (Z.land flags (Z.lnot access_mask)) m)
        end
      else apply_options rest flags
  end.

Fixpoint has_nul (s : string) : bool :=
  match s with
  | String c r => (code c =? 0) || has_nul r
  | EmptyString => false
  end.

(** The file and the flags a name opens with, given the flags of the
    caller. *)
Definition parse_uri (name : string) (flags : Z) : result (string * Z) :=
  match name with
  | String "f" (String "i" (String "l" (String "e" (String ":" body)))) =>
      body ←
        match body with
        | String "/" (String "/" r) =>
            let '(au, rest) := split_authority r in
            if String.eqb au "" || String.eqb au "localhost" then Ok rest
            else Raise OperationalError
        | _ => Ok body
        end;
      let a := scan (Plain FileName) (mk_parsed "" [] "" "") body in
      flags ← apply_options (u_options a) flags;
      Ok (u_file a, flags)
  | _ => Ok (name, flags)
  end.

(** *** Connections *)

Record connection : Type := mk_connection {
  c_flags : Z;
  c_file : file
}.

(** [sqlite3.connect(name, uri=True)]: Python asks for read, write and
    create; the URI may lower that.  A file is created only when it is
    missing and the flags that remain allow it. *)
Definition connect (name : string) (fs : filesystem)
  : result connection * filesystem :=
  if has_nul name then (Raise ValueError, fs)
  else
    match parse_uri name (Z.lor OPEN_READWRITE OPEN_CREATE) with
    | Raise e => (Raise e, fs)
    | Ok (path, flags) =>
        if negb (Z.land flags OPEN_MEMORY =? 0) || String.eqb path ""
        then (Ok (mk_connection flags (Database [])), fs)
        else
          match fs !! path with
          | Some f => (Ok (mk_connection flags f), fs)
          | None =>
              if negb (Z.land flags OPEN_CREATE =? 0)
              then (Ok (mk_connection flags (Database [])), <[path := Database []]> fs)
              else (Raise OperationalError, fs)
          end
    end.

Definition tables_of (con : connection) : result (list table) :=
  match c_file con with
  | Database ts => Ok ts
  | NotADatabase => Raise DatabaseError
  end.

(** [SELECT name FROM sqlite_master WHERE type='table']. *)
Definition table_names (con : connection) : result (list string) :=
  ts ← tables_of con; Ok (List.map t_name ts).

(** Names of tables and columns match without regard to ASCII case. *)
Definition name_eqb (a b : string) : bool := String.eqb (lower a) (lower b).

Definition find_table (name : string) (con : connection) : result table :=
  ts ← tables_of con;
  match List.find (fun t => name_eqb (t_name t) name) ts with
  | Some t => Ok t
  | None => Raise OperationalError
  end.

Fixpoint index_of (name : string) (cols : list string) : option nat :=
  match cols with
  | [] => None
  | c :: r => if name_eqb c name then Some O else S <$> index_of name r
  end.

(** The position of a column of a table. *)
Definition column (name : string) (t : table) : result nat :=
  match index_of name (t_columns t) with
  | Some i => Ok i
  | None => Raise OperationalError
  end.

Definition cell (row : list value) (i : nat) : value := nth i row VNone.

(** *** Comparing values

    NULL sorts first, then numbers by value, then text, then blobs, the
    last two byte by byte. *)

Definition class_rank (v : value) : Z :=
  match v with
  | VNone => 0
  | VInt _ | VFloat _ => 1
  | VStr _ => 2
  | VBytes _ => 3
  end.

Definition compare_Z_float (z : Z) (f : spec_float) : comparison :=
  match f with
  | S754_zero _ => z ?= 0
  | S754_infinity s => if s then Gt else Lt
  | S754_nan => Gt
  | S754_finite s m e =>
      let a := if s then Zneg m else Zpos m in
      if 0 <=? e then z ?= a * 2 ^ e else z * 2 ^ (- e) ?= a
  end.

Definition compare_float (a b : spec_float) : comparison :=
  match SFcompare a b with
  | Some c => c
  | None => Eq
  end.

Definition compare (a b : value) : comparison :=
  match a, b with
  | VInt x, VInt y => x ?= y
  | VInt x, VFloat g => compare_Z_float x g
  | VFloat f, VInt y => CompOpp (compare_Z_float y f)
  | VFloat f, VFloat g => compare_float f g
  | VStr s, VStr t | VBytes s, VBytes t => String.compare s t
  | _, _ => class_rank a ?= class_rank b
  end.

(** [a = b] in a join condition: never true on NULL. *)
Definition equal (a b : value) : bool :=
  match a, b with
  | VNone, _ | _, VNone => false
  | _, _ => match compare a b with Eq => true | _ => false end
  end.

(** [ORDER BY key DESC], keeping the order of rows with equal keys. *)
Fixpoint insert_desc {A : Type} (key : A -> value) (x : A) (l : list A) : list A :=
  match l with
  | [] => [x]
  | y :: r =>
      match compare (key x) (key y) with
      | Gt => x :: l
      | _ => y :: insert_desc key x r
      end
  end.

Definition order_by_desc {A : Type} (key : A -> value) (l : list A) : list A :=
  foldr (insert_desc key) [] l.

Definition INT64_MIN : Z := - 2 ^ 63.
Definition INT64_MAX : Z := 2 ^ 63 - 1.

(** [LIMIT n] with [n] written as an integer literal: a negative limit
    is no limit; a literal that is no 64-bit integer is refused. *)
Definition limit {A : Type} (n : Z) (l : list A) : result (list A) :=
  if (INT64_MIN <=? n) && (n <=? INT64_MAX) then
    Ok (if n <? 0 then l else take (Z.to_nat n) l)
  else Raise IntegrityError.

(** *** Arithmetic

    The operands of [/] and [-] are read as numbers: text and blobs by
    their longest numeric prefix, 0 when there is none. *)

Inductive number : Type :=
  | NNull
  | NInt (z : Z)
  | NReal (f : spec_float).

Definition in_int64 (z : Z) : bool := (INT64_MIN <=? z) && (z <=? INT64_MAX).

Definition exponent_prefix (s : string) : option Z :=
  match s with
  | String c r =>
      if Ascii.eqb (lower_char c) "e" then
        let '(neg, body) := Py.split_sign r in
        let '(z, n, _) := Py.digits 0 0 body in
        if 0 <? n then Some (if neg then - z else z) else None
      else None
  | EmptyString => None
  end.

Definition number_of_text (s : string) : number :=
  let '(neg, body) := Py.split_sign (Py.lstrip Py.is_space_bytes s) in
  let '(i, ni, r1) := Py.digits 0 0 body in
  let '(m, nf, r2, point) :=
    match r1 with
    | String "." r => let '(m, nf, r2) := Py.digits i 0 r in (m, nf, r2, true)
    | _ => (i, 0, r1, false)
    end in
  if ni + nf =? 0 then NInt 0
  else
    match exponent_prefix r2 with
    | Some e => NReal (Py.float_of_decimal neg m (e - nf))
    | None =>
        let z := if neg then - m else m in
        if negb point && in_int64 z then NInt z
        else NReal (Py.float_of_decimal neg m (- nf))
    end.

Definition number_of (v : value) : number :=
  match v with
  | VNone => NNull
  | VInt z => NInt z
  | VFloat f => NReal f
  | VStr s | VBytes s => number_of_text s
  end.

Definition real_of (n : number) : spec_float :=
  match n with
  | NInt z => Py.float_of_Z z
  | NReal f => f
  | NNull => S754_zero false
  end.

(** A real result; NaN is NULL. *)
Definition real_result (f : spec_float) : number :=
  match f with
  | S754_nan => NNull
  | _ => NReal f
  end.

(** [a / b]: integers divide towards zero; a zero divisor gives NULL. *)
Definition divide (a b : number) : number :=
  match a, b with
  | NNull, _ | _, NNull => NNull
  | NInt x, NInt y =>
      if y =? 0 then NNull
      else if in_int64 (Z.quot x y) then NInt (Z.quot x y)
      else real_result (Py.div (Py.float_of_Z x) (Py.float_of_Z y))
  | _, _ =>
      if Py.is_zero (real_of b) then NNull
      else real_result (Py.div (real_of a) (real_of b))
  end.

(** [a - b]: an integer result that leaves 64 bits is computed as a
    real. *)
Definition subtract (a b : number) : number :=
  match a, b with
  | NNull, _ | _, NNull => NNull
  | NInt x, NInt y =>
      if in_int64 (x - y) then NInt (x - y)
      else real_result (SFsub Py.prec Py.emax (Py.float_of_Z x) (Py.float_of_Z y))
  | _, _ => real_result (SFsub Py.prec Py.emax (real_of a) (real_of b))
  end.

(** *** Dates

    A moment is a count of milliseconds from noon of the day 0 of the
    Julian day numbering; the dates that can be written end with the
    year 9999. *)

Definition JD_UNIX_EPOCH : Z := 210866760000000.
Definition JD_END : Z := 464269060800000.

(** The ['unixepoch'] modifier: seconds from 1970-01-01T00:00:00Z to a
    moment.  On an integer the arithmetic on doubles is exact where the
    range test succeeds. *)
Definition julian_of_unix (x : number) : option Z :=
  match x with
  | NNull => None
  | NInt n =>
      let r := n * 1000 + JD_UNIX_EPOCH in
      if (0 <=? r) && (r <? JD_END) then Some r else None
  | NReal s =>
      let r := SFadd Py.prec Py.emax (Py.mul s (Py.float_of_Z 1000))
                 (Py.float_of_Z JD_UNIX_EPOCH) in
      if SFleb (S754_zero false) r && SFltb r (Py.float_of_Z JD_END)
      then Some (Py.trunc (SFadd Py.prec Py.emax r Datetime.half))
      else None
  end.

(** The civil date of a day counted from 1970-01-01. *)
Definition civil_from_days (z : Z) : Z * Z * Z :=
  let z := z + 719468 in
  let era := z / 146097 in
  let doe := z - era * 146097 in
  let yoe := (doe - doe / 1460 + doe / 36524 - doe / 146096) / 365 in
  let doy := doe - (365 * yoe + yoe / 4 - yoe / 100) in
  let mp := (5 * doy + 2) / 153 in
  let d := doy - (153 * mp + 2) / 5 + 1 in
  let m := if mp <? 10 then mp + 3 else mp - 9 in
  (yoe + era * 400 + (if m <=? 2 then 1 else 0), m, d).

Definition format_year (y : Z) : string :=
  if y <? 0 then "-" +:+ zfill 4 (- y) else zfill 4 y.

(** The fields of a moment: date, hour, minute, whole second. *)
Definition fields_of_julian (jd : Z) : Z * Z * Z * Z * Z * Z :=
  let day := (jd + 43200000) / 86400000 in
  let '(y, m, d) := civil_from_days (day - 2440588) in
  let day_ms := (jd + 43200000) mod 86400000 in
  let day_min := day_ms / 60000 in
  (y, m, d, day_min / 60, day_min mod 60, (day_ms mod 60000) / 1000).

(** [YYYY-MM-DD HH:MM:SS]. *)
Definition format_fields (f : Z * Z * Z * Z * Z * Z) : string :=
  let '(y, m, d, h, mi, s) := f in
  format_year y +:+ "-" +:+ zfill 2 m +:+ "-" +:+ zfill 2 d +:+ " "
  +:+ zfill 2 h +:+ ":" +:+ zfill 2 mi +:+ ":" +:+ zfill 2 s.

(** [datetime(x, 'unixepoch')]: NULL when [x] is NULL or the moment
    cannot be written. *)
Definition datetime_unixepoch (x : number) : value :=
  match julian_of_unix x with
  | Some jd => VStr (format_fields (fields_of_julian jd))
  | None => VNone
  end.

End Sqlite.


(** ** main.py: [detect_kind] (lines 42-52) *)

(** The f-string of lines 43 and 55. *)
Definition connect_uri (db_path : string) : string :=
  "file:" +:+ db_path +:+ "?mode=ro".

(** A computation on the file system. *)
Definition io (A : Type) : Type := Sqlite.filesystem -> result A * Sqlite.filesystem.

Definition detect_kind (db_path : string) : io kind := fun fs =>
  let '(con, fs) := Sqlite.connect (connect_uri db_path) fs in
  (con ← con;
   names ← Sqlite.table_names con;
   Ok (classify (lowered_names names)), fs).

(** ** main.py: [query_rows] (lines 54-119) *)

(** [x or ""]. *)
Definition truthy (v : value) : bool :=
  match v with
  | VNone => false
  | VInt z => negb (z =? 0)
  | VFloat f => negb (Py.is_zero f)
  | VStr s | VBytes s => negb (String.eqb s "")
  end.

Definition or_empty (v : value) : value := if truthy v then v else VStr "".

(** A row of the four selected columns: [visit_id], [url], [title],
    [raw_time]. *)
Record visit_row : Type := mk_visit_row {
  visit_id : value; url : value; title : value; raw_time : value
}.

(** [SELECT v.id, u.url, u.title, v.time FROM visits v JOIN urls u
    ON v.key = u.id ORDER BY v.time DESC LIMIT n], lines 61-89. *)
Definition select_joined (con : Sqlite.connection)
    (visits urls key time : string) (n : Z) : result (list visit_row) :=
  v ← Sqlite.find_table visits con;
  u ← Sqlite.find_table urls con;
  v_id ← Sqlite.column "id" v;
  v_key ← Sqlite.column key v;
  v_time ← Sqlite.column time v;
  u_id ← Sqlite.column "id" u;
  u_url ← Sqlite.column "url" u;
  u_title ← Sqlite.column "title" u;
  let joined :=
    flat_map (fun r =>
      flat_map (fun s =>
        if Sqlite.equal (Sqlite.cell r v_key) (Sqlite.cell s u_id)
        then [mk_visit_row (Sqlite.cell r v_id) (Sqlite.cell s u_url)
                (Sqlite.cell s u_title) (Sqlite.cell r v_time)]
        else [])
        (Sqlite.t_rows u))
      (Sqlite.t_rows v) in
  Sqlite.limit n (Sqlite.order_by_desc raw_time joined).

(** [SELECT id, url, title, last_visit_time FROM urls
    ORDER BY last_visit_time DESC LIMIT n], line 91. *)
Definition select_urls (con : Sqlite.connection) (n : Z) : result (list visit_row) :=
  u ← Sqlite.find_table "urls" con;
  u_id ← Sqlite.column "id" u;
  u_url ← Sqlite.column "url" u;
  u_title ← Sqlite.column "title" u;
  u_time ← Sqlite.column "last_visit_time" u;
  Sqlite.limit n
    (Sqlite.order_by_desc raw_time
       (List.map (fun r => mk_visit_row (Sqlite.cell r u_id) (Sqlite.cell r u_url)
                             (Sqlite.cell r u_title) (Sqlite.cell r u_time))
          (Sqlite.t_rows u))).

Definition select_visits (con : Sqlite.connection) (k : kind) (n : Z)
  : result (list visit_row) :=
  match k with
  | chromium => select_joined con "visits" "urls" "url" "visit_time" n
  | firefox => select_joined con "moz_historyvisits" "moz_places" "place_id" "visit_date" n
  | safari => select_joined con "history_visits" "history_items" "history_item" "visit_time" n
  | unknown => select_urls con n
  end.

(** Lines 94-96. *)
Definition visited_utc (k : kind) (raw : value) : string :=
  match k with
  | chromium | unknown => chrome_to_utc raw
  | firefox => firefox_to_utc raw
  | safari => safari_to_utc raw
  end.

(** A yielded record: a Python [dict] with string keys. *)
Abbreviation record := (gmap string value).

(** Line 97. *)
Definition visit_record (k : kind) (r : visit_row) : record :=
  list_to_map
    [("id", visit_id r); ("url", url r); ("title", or_empty (title r));
     ("utc", VStr (visited_utc k (raw_time r)))].

(** [datetime((x / 1000000) - 11644473600, 'unixepoch')], lines 103-106. *)
Definition query_utc (x : value) : value :=
  Sqlite.datetime_unixepoch
    (Sqlite.subtract (Sqlite.divide (Sqlite.number_of x) (Sqlite.NInt 1000000))
       (Sqlite.NInt 11644473600)).

(** The columns read from [downloads], in the order of the [SELECT]. *)
Definition download_columns : list string :=
  ["id"; "guid"; "current_path"; "target_path"; "start_time"; "received_bytes";
   "total_bytes"; "hash"; "end_time"; "last_access_time"; "referrer"; "tab_url";
   "tab_referrer_url"; "mime_type"; "original_mime_type"].

Definition is_time_column (c : string) : bool :=
  String.eqb c "start_time" || String.eqb c "end_time"
  || String.eqb c "last_access_time".

(** The key under which a selected column is yielded, lines 113-119. *)
Definition download_key (c : string) : string :=
  if is_time_column c then c +:+ "_utc" else c.

Fixpoint columns (names : list string) (t : Sqlite.table) : result (list nat) :=
  match names with
  | [] => Ok []
  | c :: r => i ← Sqlite.column c t; rest ← columns r t; Ok (i :: rest)
  end.

(** The record of one row of [downloads]. *)
Definition download_record (idx : list nat) (row : list value) : record :=
  list_to_map
    (zip_with (fun c i =>
       (download_key c,
        if is_time_column c then query_utc (Sqlite.cell row i) else Sqlite.cell row i))
       download_columns idx).

(** Lines 101-110: the rows of [downloads], latest start first. *)
Definition select_downloads (con : Sqlite.connection) (n : Z) : result (list record) :=
  t ← Sqlite.find_table "downloads" con;
  idx ← columns download_columns t;
  start ← Sqlite.column "start_time" t;
  rows ← Sqlite.limit n
         (Sqlite.order_by_desc (fun r => Sqlite.cell r start) (Sqlite.t_rows t));
  Ok (List.map (download_record idx) rows).

(** [query_rows], consumed to the end: the records yielded in their order,
    or the exception that ends the generator.  [cur.fetchall()] reads the
    whole result before the first [yield], so an exception leaves no record
    behind. *)
Definition query_rows (db_path : string) (k : kind) (table_type : string)
    (limit : value) : io (list record) := fun fs =>
  let '(con, fs) := Sqlite.connect (connect_uri db_path) fs in
  (con ← con;
   if String.eqb table_type "urls" then
     n ← Py.int limit;
     rows ← select_visits con k n;
     Ok (List.map (visit_record k) rows)
   else if String.eqb table_type "downloads" then
     match k with
     | chromium => n ← Py.int limit; select_downloads con n
     | _ => Ok []
     end
   else Ok [], fs).

(** ** main.py: the limits of the two callers *)

(** Lines 292-294 of [upload]: the form field, clamped. *)
Definition upload_limit (field : string) : Z :=
  match Py.int (VStr field) with
  | Ok n => Z.max 1 (Z.min 100000 n)
  | Raise _ => 5000
  end.

(** Line 301 of [upload]. *)
Definition upload_rows (path : string) (table_type field : string) : io (list record) :=
  fun fs =>
    let '(k, fs) := detect_kind path fs in
    match k with
    | Ok k => query_rows path k table_type (VInt (upload_limit field)) fs
    | Raise e => (Raise e, fs)
    end.

(** Line 319 of [export_csv]. *)
Definition export_limit : Z := 1000000.

Definition export_rows (path : string) (k : kind) (table_type : string) : io (list record) :=
  query_rows path k table_type (VInt export_limit).

(** ** main.py: [upload] and [export_csv] around the core *)

(** An entry of [FILE_INDEX], line 302. *)
Record upload_meta : Type := mk_meta {
  m_path : string; m_kind : kind; m_table_type : string
}.

(** [FILE_INDEX]: token to entry. *)
Abbreviation file_index := (gmap string upload_meta).

(** Lines 300-302 of [upload], once the file is saved at [path]: detect,
    read the rows to show, and only then record the token.  An exception
    leaves [FILE_INDEX] as it was. *)
Definition upload_core (token path table_type field : string)
    (index : file_index) (fs : Sqlite.filesystem)
  : result (list record) * file_index * Sqlite.filesystem :=
  let '(k, fs) := detect_kind path fs in
  match k with
  | Raise e => (Raise e, index, fs)
  | Ok k =>
      let '(rows, fs) :=
        query_rows path k table_type (VInt (upload_limit field)) fs in
      match rows with
      | Raise e => (Raise e, index, fs)
      | Ok rows =>
          (Ok rows, <[token := mk_meta path k table_type]> index, fs)
      end
  end.

(** Lines 312-317: the header row of the export. *)
Definition urls_header : list string := ["id"; "url"; "title"; "utc"].

Definition downloads_header : list string :=
  ["id"; "guid"; "current_path"; "target_path"; "start_time_utc";
   "received_bytes"; "total_bytes"; "hash"; "end_time_utc";
   "last_access_time_utc"; "referrer"; "tab_url"; "tab_referrer_url";
   "mime_type"; "original_mime_type"].

Definition export_header (table_type : string) : list string :=
  if String.eqb table_type "urls" then urls_header else downloads_header.

(** Lines 320-326: the fields of one exported row, [r[key]] for each key
    of the header; [None] stands for the [KeyError] of a missing key. *)
Definition csv_fields (table_type : string) (r : record) : option (list value) :=
  mapM (fun key => r !! key) (export_header table_type).

(** What [export_csv] answers: 404, or the header and then the rows, which
    end with an exception or with a missing key. *)
Inductive exported : Type :=
  | Rows (rows : list (list value))
  | Failed (e : exn)
  | MissingKey.

Inductive response : Type :=
  | NotFound
  | Stream (header : list string) (body : exported).

(** [export_csv], lines 306-329, with the stream read to its end. *)
Definition export_csv (token : string) (index : file_index)
    (fs : Sqlite.filesystem) : response * Sqlite.filesystem :=
  match index !! token with
  | None => (NotFound, fs)
  | Some m =>
      let '(rows, fs) :=
        query_rows (m_path m) (m_kind m) (m_table_type m) (VInt 1000000) fs in
      (Stream (export_header (m_table_type m))
         match rows with
         | Raise e => Failed e
         | Ok rows =>
             match mapM (csv_fields (m_table_type m)) rows with
             | Some l => Rows l
             | None => MissingKey
             end
         end, fs)
  end.


(** ** Vocabulary of the properties *)

(** The fields [isoformat] can be given: a date of the calendar in the
    years 1 to 9999 and a time of day. *)
Definition well_formed (dt : datetime) : Prop :=
  1 <= year dt <= 9999 /\ 1 <= month dt <= 12
  /\ 1 <= day dt <= Iso8601.month_length (year dt) (month dt)
  /\ 0 <= hour dt < 24 /\ 0 <= minute dt < 60 /\ 0 <= second dt < 60
  /\ 0 <= microsecond dt < 1000000.

Definition normalised (td : timedelta) : Prop :=
  - MAX_DELTA_DAYS <= td_days td <= MAX_DELTA_DAYS
  /\ 0 <= td_seconds td < 86400 /\ 0 <= td_microseconds td < 1000000.

(** The whole number of microseconds of a duration. *)
Definition total_microseconds (td : timedelta) : Z :=
  (td_days td * 86400 + td_seconds td) * 1000000 + td_microseconds td.

(** The date [td] after the first day of the year [y0] has an ordinal. *)
Definition ordinal_in_range (y0 : Z) (td : timedelta) : bool :=
  (1 <=? ymd_to_ord y0 1 1 + td_days td)
  && (ymd_to_ord y0 1 1 + td_days td <=? MAXORDINAL).

(** The Chromium values whose instant has a year from 1 to 9999. *)
Definition chromium_min : Z := -50491123200000000.
Definition chromium_max : Z := 265046774399999999.

(** Checks [p] on the [2 ^ depth] integers from [lo]. *)
Fixpoint all_from (depth : nat) (lo : Z) (p : Z -> bool) : bool :=
  match depth with
  | O => p lo
  | S k => all_from k lo p && all_from k (lo + 2 ^ Z.of_nat k) p
  end.

(** What [ord_to_ymd] owes at an ordinal [r] of the first 400 years: a
    date of the calendar, [r - 719163] days from 1970-01-01. *)
Definition cycle_ok (r : Z) : bool :=
  let '(y, m, d) := ord_to_ymd r in
  (Iso8601.days_from_civil y m d =? r - 719163)
  && (1 <=? y) && (y <=? 400) && ((145731 <? r) || (y <=? 399))
  && (1 <=? m) && (m <=? 12) && (1 <=? d) && (d <=? Iso8601.month_length y m)
  && (let '(y', m', d') := Sqlite.civil_from_days (r - 719163) in
      (y' =? y) && (m' =? m) && (d' =? d)).

(** The Firefox values whose instant has a year from 1 to 9999. *)
Definition firefox_min : Z := -62135596800000000.
Definition firefox_max : Z := 253402300799999999.

(** An input of [chrome_to_utc] or [firefox_to_utc] that gives no
    timestamp: [int] refuses it, or the integer lies outside the values
    [lo] to [hi] whose date has a year from 1 to 9999 (a duration that
    overflows lies outside as well). *)
Definition int_malformed (lo hi : Z) (v : value) : Prop :=
  match Py.int v with
  | Ok n => n < lo \/ hi < n
  | Raise _ => True
  end.

(** An input of [safari_to_utc] that gives no timestamp: [float] refuses
    it, or its seconds are no duration (NaN, an infinity, more than
    999999999 days), or the date leaves the years 1 to 9999. *)
Definition safari_malformed (v : value) : Prop :=
  match Py.float v with
  | Raise _ => True
  | Ok x =>
      match timedelta_seconds (safari_seconds x) with
      | Raise _ => True
      | Ok td => ordinal_in_range 2001 td = false
      end
  end.

(** The first days of the year [y0] and the last of the year before, as
    [Sqlite.civil_from_days] must give them: [k] days from January 1. *)
Definition first_days_ok (y0 k : Z) : bool :=
  let '(y, m, d) :=
    Sqlite.civil_from_days (Iso8601.days_from_civil y0 1 1 + k) in
  let '(y', m', d') :=
    if k =? -1 then (y0 - 1, 12, 31)
    else if k =? 31 then (y0, 2, 1) else (y0, 1, 1 + k) in
  (y =? y') && (m =? m') && (d =? d').

Definition first_days (y0 : Z) : Prop :=
  forall k, -1 <= k <= 31 -> first_days_ok y0 k = true.

(** The time of day of [dt] is the seconds and microseconds of [td]. *)
Definition time_of_day (dt : datetime) (td : timedelta) : Prop :=
  hour dt = td_seconds td / 60 / 60
  /\ minute dt = td_seconds td / 60 mod 60
  /\ second dt = td_seconds td mod 60
  /\ microsecond dt = td_microseconds td.

(** A year whose first day can serve as an epoch: what the arithmetic on
    January 1 of the year [y0] relies on. *)
Definition epoch_year (y0 : Z) : Prop :=
  2 <= y0 <= 9998
  /\ 32 <= ymd_to_ord y0 1 1 <= MAXORDINAL - 32
  /\ Iso8601.days_from_civil y0 1 1 = ymd_to_ord y0 1 1 - 719163
  /\ first_days y0.

(** The sign of a float is set (negative numbers, [-0.0], [-inf]). *)
Definition is_negative (x : spec_float) : bool :=
  match x with
  | S754_zero s | S754_infinity s | S754_finite s _ _ => s
  | S754_nan => false
  end.

(** The whole seconds before 2001-01-01 that stay in the years from 1. *)
Definition cocoa_min_seconds : Z := -63113904000.






(** The table names [detect_kind] looks for. *)
Definition signature_names : list string :=
  ["urls"; "visits"; "moz_places"; "moz_historyvisits"; "history_items";
   "history_visits"; "downloads"].



(** ** Fixtures *)

(** A Chromium history file with two pages, three visits and a download
    whose end time was never set to a date SQLite can write. *)
Definition chromium_fixture : Sqlite.filesystem :=
  {[ "History" := Sqlite.Database
       [Sqlite.mk_table "urls" ["id"; "url"; "title"; "visit_count"; "last_visit_time"]
          [[VInt 1; VStr "http://example.com"; VStr "Example"; VInt 2;
            VInt 13300000000000009];
           [VInt 2; VStr "http://b.org"; VNone; VInt 1; VInt 13300000000000005]];
        Sqlite.mk_table "visits" ["id"; "url"; "visit_time"]
          [[VInt 1; VInt 1; VInt 13300000000000000];
           [VInt 2; VInt 2; VInt 13300000000000005];
           [VInt 3; VInt 1; VInt 13300000000000009]];
        Sqlite.mk_table "downloads" download_columns
          [[VInt 1; VStr "g"; VStr "/c"; VStr "/t"; VInt 13300000000000000;
            VInt 10; VInt 10; VBytes ""; VInt 9223372036854775807; VInt 0;
            VStr "r"; VStr "tu"; VStr "tr"; VStr "m"; VStr "om"]]] ]}.

(** The three visits of the fixture as [query_rows] yields them, latest
    first. *)
Definition fixture_visit_3 : visit_row :=
  mk_visit_row (VInt 3) (VStr "http://example.com") (VStr "Example")
    (VInt 13300000000000009).

Definition fixture_visit_2 : visit_row :=
  mk_visit_row (VInt 2) (VStr "http://b.org") VNone (VInt 13300000000000005).


Definition fixture_visits_2 : list record :=
  List.map (visit_record chromium) [fixture_visit_3; fixture_visit_2].



Definition minus_2e14 : spec_float :=
  Eval vm_compute in Py.float_of_decimal true 2 14.

Definition f677222800 : spec_float :=
  Eval vm_compute in Py.float_of_Z 677222800.

Definition firefox_fixture : Sqlite.filesystem :=
  {[ "places.sqlite" := Sqlite.Database
       [Sqlite.mk_table "moz_places" ["id"; "url"; "title"] [];
        Sqlite.mk_table "moz_historyvisits" ["id"; "place_id"; "visit_date"] []] ]}.

(** Every query of [query_rows] ends with [LIMIT n]: it fails whatever
    the limit is, or has a full result of which [LIMIT n] keeps a part. *)
Definition limited {A : Type} (q : Z -> result (list A)) : Prop :=
  (exists e, forall n, q n = Raise e)
  \/ (exists all, forall n, q n = Sqlite.limit n all).

Definition fixture_upload
  : result (list record) * file_index * Sqlite.filesystem :=
  upload_core "tok" "History" "urls" "2" ∅ chromium_fixture.

Definition renamed_fixture : Sqlite.filesystem :=
  {[ "Other" := Sqlite.Database
       [Sqlite.mk_table "meta" ["key"; "value"] [];
        Sqlite.mk_table "DOWNLOADS" [] [];
        Sqlite.mk_table "VISITS" ["x"] [];
        Sqlite.mk_table "Urls" [] []] ]}.


(** * Properties *)

(** ** Calendar arithmetic *)

Lemma all_from_sound (depth : nat) (p : Z -> bool) :
  forall lo, all_from depth lo p = true ->
  forall n, lo <= n < lo + 2 ^ Z.of_nat depth -> p n = true.
Proof.
  induction depth as [|k IH]; intros lo H n Hn.
  - simpl in *. replace n with lo by lia. exact H.
  - cbn [all_from] in H. apply andb_true_iff in H as [H1 H2].
    rewrite Nat2Z.inj_succ, Z.pow_succ_r in Hn by lia.
    destruct (Z_lt_le_dec n (lo + 2 ^ Z.of_nat k)).
    + apply (IH lo H1). lia.
    + apply (IH _ H2). lia.
Qed.

Lemma first_cycle_ok : forall n, 1 <= n <= 146097 -> cycle_ok n = true.
Proof.
  set (p := fun n => (146097 <? n) || cycle_ok n).
  assert (H1 : all_from 17 1 p = true) by (vm_compute; reflexivity).
  assert (H2 : all_from 14 131073 p = true) by (vm_compute; reflexivity).
  assert (H : forall n, 1 <= n <= 146097 -> p n = true).
  { intros n Hn. destruct (Z_lt_le_dec n 131073).
    - apply (all_from_sound _ _ _ H1). change (2 ^ Z.of_nat 17) with 131072. lia.
    - apply (all_from_sound _ _ _ H2). change (2 ^ Z.of_nat 14) with 16384. lia. }
  intros n Hn. specialize (H n Hn). unfold p in H.
  destruct (146097 <? n) eqn:E; [lia | exact H].
Qed.

Lemma is_leap_shift (y k : Z) : is_leap (y + 400 * k) = is_leap y.
Proof.
  unfold is_leap.
  replace (y + 400 * k) with (y + (100 * k) * 4) at 1 by lia.
  replace (y + 400 * k) with (y + (4 * k) * 100) at 1 by lia.
  replace (y + 400 * k) with (y + k * 400) by lia.
  now rewrite !Z_mod_plus_full.
Qed.

Lemma leap_year_shift (y k : Z) :
  Iso8601.leap_year (y + 400 * k) = Iso8601.leap_year y.
Proof. exact (is_leap_shift y k). Qed.

Lemma days_in_month_shift (y k m : Z) :
  days_in_month (y + 400 * k) m = days_in_month y m.
Proof. unfold days_in_month. now rewrite is_leap_shift. Qed.

Lemma month_length_shift (y k m : Z) :
  Iso8601.month_length (y + 400 * k) m = Iso8601.month_length y m.
Proof. unfold Iso8601.month_length. now rewrite leap_year_shift. Qed.

Lemma days_from_civil_shift (y k m d : Z) :
  Iso8601.days_from_civil (y + 400 * k) m d
  = Iso8601.days_from_civil y m d + 146097 * k.
Proof.
  unfold Iso8601.days_from_civil.
  destruct (m <=? 2).
  - replace (y + 400 * k - 1) with (y - 1 + k * 400) by lia.
    rewrite Z.div_add by lia.
    replace (y - 1 + k * 400 - ((y - 1) / 400 + k) * 400)
      with (y - 1 - (y - 1) / 400 * 400) by lia.
    lia.
  - replace (y + 400 * k) with (y + k * 400) by lia.
    rewrite Z.div_add by lia.
    replace (y + k * 400 - (y / 400 + k) * 400) with (y - y / 400 * 400) by lia.
    lia.
Qed.

Lemma civil_from_days_shift (z k : Z) :
  Sqlite.civil_from_days (z + 146097 * k)
  = let '(y, m, d) := Sqlite.civil_from_days z in (y + 400 * k, m, d).
Proof.
  unfold Sqlite.civil_from_days.
  replace (z + 146097 * k + 719468) with (z + 719468 + k * 146097) by lia.
  rewrite Z.div_add by lia.
  replace (z + 719468 + k * 146097 - ((z + 719468) / 146097 + k) * 146097)
    with (z + 719468 - (z + 719468) / 146097 * 146097) by lia.
  cbv zeta. f_equal. f_equal. lia.
Qed.

Lemma days_from_civil_day (y m d : Z) :
  Iso8601.days_from_civil y m d = Iso8601.days_from_civil y m 1 + (d - 1).
Proof. unfold Iso8601.days_from_civil. lia. Qed.

Lemma ord_to_ymd_shift (n k : Z) :
  ord_to_ymd (n + 146097 * k)
  = let '(y, m, d) := ord_to_ymd n in (y + 400 * k, m, d).
Proof.
  unfold ord_to_ymd, DI400Y.
  replace (n + 146097 * k - 1) with (n - 1 + k * 146097) by lia.
  rewrite Z.div_add, Z_mod_plus_full by lia.
  set (r := (n - 1) mod 146097).
  set (n100 := r / DI100Y).
  set (n4 := r mod DI100Y / DI4Y).
  set (n1 := r mod DI100Y mod DI4Y / 365).
  set (j := r mod DI100Y mod DI4Y mod 365).
  replace (((n - 1) / 146097 + k) * 400 + 1 + n100 * 100 + n4 * 4 + n1)
    with ((n - 1) / 146097 * 400 + 1 + n100 * 100 + n4 * 4 + n1 + 400 * k) by lia.
  set (y := (n - 1) / 146097 * 400 + 1 + n100 * 100 + n4 * 4 + n1).
  rewrite days_in_month_shift.
  destruct ((n1 =? 4) || (n100 =? 4)).
  - f_equal. f_equal. lia.
  - destruct (j <? _); reflexivity.
Qed.

(** [ord_to_ymd] on every ordinal of the years 1 to 9999. *)
Lemma ord_to_ymd_spec (n : Z) :
  1 <= n <= MAXORDINAL ->
  exists y m d,
    ord_to_ymd n = (y, m, d)
    /\ Sqlite.civil_from_days (n - 719163) = (y, m, d)
    /\ Iso8601.days_from_civil y m d = n - 719163
    /\ 1 <= y <= 9999 /\ 1 <= m <= 12 /\ 1 <= d <= Iso8601.month_length y m.
Proof.
  unfold MAXORDINAL. intros Hn.
  set (q := (n - 1) / 146097).
  set (r := (n - 1) mod 146097 + 1).
  assert (Hq : n = r + 146097 * q).
  { unfold r, q. pose proof (Z.div_mod (n - 1) 146097). lia. }
  assert (Hr : 1 <= r <= 146097).
  { unfold r. pose proof (Z.mod_pos_bound (n - 1) 146097). lia. }
  assert (Hq0 : 0 <= q <= 24).
  { unfold q. split.
    - apply Z.div_pos; lia.
    - apply Z.lt_succ_r. apply Z.div_lt_upper_bound; lia. }
  pose proof (first_cycle_ok r Hr) as Hc. unfold cycle_ok in Hc.
  rewrite Hq, ord_to_ymd_shift.
  replace (r + 146097 * q - 719163) with (r - 719163 + 146097 * q) by lia.
  rewrite civil_from_days_shift.
  destruct (ord_to_ymd r) as [[y m] d].
  destruct (Sqlite.civil_from_days (r - 719163)) as [[y' m'] d'].
  repeat (apply andb_true_iff in Hc as [Hc ?]).
  exists (y + 400 * q), m, d.
  rewrite days_from_civil_shift, month_length_shift.
  assert (y' = y) by lia. assert (m' = m) by lia. assert (d' = d) by lia.
  subst y' m' d'. repeat split; lia.
Qed.

(** ** Writing and reading decimal fields *)

Lemma append_nil_l (s : string) : "" +:+ s = s.
Proof. reflexivity. Qed.

Lemma append_cons (c : ascii) (a b : string) :
  String c a +:+ b = String c (a +:+ b).
Proof. reflexivity. Qed.

Lemma append_assoc (a b c : string) : (a +:+ b) +:+ c = a +:+ (b +:+ c).
Proof.
  induction a as [|x a IH]; [reflexivity|].
  now rewrite !append_cons, IH.
Qed.

Lemma digit_char_ok (n : Z) :
  Py.is_digit (digit_char n) = true /\ Py.digit_val (digit_char n) = n mod 10.
Proof.
  unfold digit_char.
  pose proof (Z.mod_pos_bound n 10 ltac:(lia)) as Hk.
  set (k := n mod 10) in *.
  assert (Hc : k = 0 \/ k = 1 \/ k = 2 \/ k = 3 \/ k = 4 \/ k = 5 \/ k = 6
               \/ k = 7 \/ k = 8 \/ k = 9) by lia.
  repeat (destruct Hc as [-> | Hc]; [split; reflexivity|]).
  subst k. rewrite Hc. split; reflexivity.
Qed.

Lemma read_digits_snoc (w : nat) :
  forall acc s v c r,
    Iso8601.read_digits w acc s = Some (v, String c r) ->
    Py.is_digit c = true ->
    Iso8601.read_digits (S w) acc s = Some (10 * v + Py.digit_val c, r).
Proof.
  induction w as [|w IH]; intros acc s v c r H Hc.
  - simpl in H. injection H as -> ->. simpl. now rewrite Hc.
  - cbn [Iso8601.read_digits] in H.
    destruct s as [|c0 s0]; [discriminate|].
    destruct (Py.is_digit c0) eqn:E; [|discriminate].
    specialize (IH _ _ _ _ _ H Hc).
    change (Iso8601.read_digits (S (S w)) acc (String c0 s0))
      with (if Py.is_digit c0
            then Iso8601.read_digits (S w) (10 * acc + Py.digit_val c0) s0
            else None).
    now rewrite E.
Qed.

Lemma read_zfill_acc (w : nat) :
  forall n acc rest, 0 <= n < 10 ^ Z.of_nat w ->
    Iso8601.read_digits w acc (zfill w n +:+ rest)
    = Some (acc * 10 ^ Z.of_nat w + n, rest).
Proof.
  induction w as [|w IH]; intros n acc rest Hn.
  - simpl in *. f_equal. f_equal. lia.
  - rewrite Nat2Z.inj_succ, Z.pow_succ_r in * by lia.
    cbn [zfill]. rewrite append_assoc, append_cons, append_nil_l.
    destruct (digit_char_ok n) as [Hd Hv].
    assert (Hq : 0 <= n / 10 < 10 ^ Z.of_nat w).
    { split; [apply Z.div_pos; lia | apply Z.div_lt_upper_bound; lia]. }
    rewrite (read_digits_snoc w _ _ _ _ _ (IH (n / 10) acc _ Hq) Hd).
    f_equal. f_equal. rewrite Hv. pose proof (Z.div_mod n 10). lia.
Qed.

Lemma read_zfill (w : nat) (n : Z) (rest : string) :
  0 <= n < 10 ^ Z.of_nat w ->
  Iso8601.read_digits w 0 (zfill w n +:+ rest) = Some (n, rest).
Proof. intros H. rewrite read_zfill_acc by exact H. f_equal. Qed.

(** [isoformat] writes a timestamp that reads back as the same fields. *)
Lemma parse_isoformat (dt : datetime) :
  well_formed dt -> Iso8601.parse (isoformat dt) = Some dt.
Proof.
  destruct dt as [y mo d h mi s us]. unfold well_formed. cbn [year month day hour minute second microsecond].
  intros (Hy & Hmo & Hd & Hh & Hmi & Hs & Hus).
  assert (Hd31 : d <= 31).
  { unfold Iso8601.month_length in Hd.
    repeat match goal with H : context [if ?b then _ else _] |- _ => destruct b end; lia. }
  unfold Iso8601.parse, isoformat.
  cbn [year month day hour minute second microsecond].
  rewrite ?append_cons, ?append_nil_l.
  rewrite read_zfill by (change (10 ^ Z.of_nat 4) with 10000; lia).
  cbn [mbind option_bind Iso8601.expect Ascii.eqb Bool.eqb].
  rewrite read_zfill by (change (10 ^ Z.of_nat 2) with 100; lia).
  cbn [mbind option_bind Iso8601.expect Ascii.eqb Bool.eqb].
  rewrite read_zfill by (change (10 ^ Z.of_nat 2) with 100; lia).
  cbn [mbind option_bind Iso8601.expect Ascii.eqb Bool.eqb].
  rewrite read_zfill by (change (10 ^ Z.of_nat 2) with 100; lia).
  cbn [mbind option_bind Iso8601.expect Ascii.eqb Bool.eqb].
  rewrite read_zfill by (change (10 ^ Z.of_nat 2) with 100; lia).
  cbn [mbind option_bind Iso8601.expect Ascii.eqb Bool.eqb].
  rewrite read_zfill by (change (10 ^ Z.of_nat 2) with 100; lia).
  cbn [mbind option_bind].
  assert (Hf : Iso8601.fields_ok y mo d h mi s = true).
  { unfold Iso8601.fields_ok. lia. }
  destruct (us =? 0) eqn:E.
  - apply Z.eqb_eq in E. subst us. rewrite append_nil_l. cbn. now rewrite Hf.
  - rewrite ?append_cons, ?append_nil_l. cbn [Iso8601.read_fraction].
    rewrite read_zfill by (change (10 ^ Z.of_nat 6) with 1000000; lia).
    cbn. now rewrite Hf.
Qed.

(** ** Durations *)

Lemma microseconds_to_delta_ok (us : Z) (td : timedelta) :
  microseconds_to_delta us = Ok td ->
  normalised td /\ total_microseconds td = us.
Proof.
  unfold microseconds_to_delta, normalised, total_microseconds.
  destruct (_ && _) eqn:E; [|discriminate].
  intros [= <-]. cbn [td_days td_seconds td_microseconds].
  apply andb_true_iff in E as [E1 E2].
  apply Z.leb_le in E1, E2.
  Z.to_euclidean_division_equations. lia.
Qed.

Lemma microseconds_to_delta_cases (us : Z) :
  let d := us / 1000000 / 86400 in
  if (- MAX_DELTA_DAYS <=? d) && (d <=? MAX_DELTA_DAYS)
  then exists td, microseconds_to_delta us = Ok td /\ td_days td = d
  else microseconds_to_delta us = Raise OverflowError.
Proof.
  unfold microseconds_to_delta. cbv zeta.
  destruct (_ && _); [eexists; split; reflexivity | reflexivity].
Qed.

Lemma first_days_checked (y0 : Z) :
  all_from 6 (-1) (fun k => (31 <? k) || first_days_ok y0 k) = true ->
  first_days y0.
Proof.
  intros H k Hk.
  pose proof (all_from_sound _ _ _ H k) as Hs.
  change (2 ^ Z.of_nat 6) with 64 in Hs.
  specialize (Hs ltac:(lia)). cbv beta in Hs.
  destruct (31 <? k) eqn:E; [lia | exact Hs].
Qed.

Lemma epoch_year_checked (y0 : Z) :
  (2 <=? y0) && (y0 <=? 9998) && (32 <=? ymd_to_ord y0 1 1)
  && (ymd_to_ord y0 1 1 <=? MAXORDINAL - 32)
  && (Iso8601.days_from_civil y0 1 1 =? ymd_to_ord y0 1 1 - 719163)
  && all_from 6 (-1) (fun k => (31 <? k) || first_days_ok y0 k) = true ->
  epoch_year y0.
Proof.
  intros H. repeat (apply andb_true_iff in H as [H ?]).
  unfold epoch_year. repeat split; try lia. now apply first_days_checked.
Qed.

(** The years of the three epochs of [main.py]. *)
Lemma epoch_year_1601 : epoch_year 1601.
Proof. apply epoch_year_checked. vm_compute. reflexivity. Qed.

Lemma epoch_year_1970 : epoch_year 1970.
Proof. apply epoch_year_checked. vm_compute. reflexivity. Qed.

Lemma epoch_year_2001 : epoch_year 2001.
Proof. apply epoch_year_checked. vm_compute. reflexivity. Qed.

(** ** Adding a duration to an epoch

    The three epochs of [main.py] are first days of a year at midnight. *)

Section Epoch.

Variable y0 : Z.
Hypothesis y0_ok : epoch_year y0.

Lemma y0_range : 2 <= y0 <= 9998.
Proof. apply y0_ok. Qed.

Lemma y0_ord : 32 <= ymd_to_ord y0 1 1 <= MAXORDINAL - 32.
Proof. apply y0_ok. Qed.

Lemma y0_civil :
  Iso8601.days_from_civil y0 1 1 = ymd_to_ord y0 1 1 - 719163.
Proof. apply y0_ok. Qed.

Lemma y0_first_days : first_days y0.
Proof. apply y0_ok. Qed.

Let epoch : datetime := mk_datetime y0 1 1 0 0 0 0.

Let epoch_us : Z := Iso8601.days_from_civil y0 1 1 * 86400000000.

Lemma normalize_epoch_date (k : Z) :
  if (1 <=? ymd_to_ord y0 1 1 + k) && (ymd_to_ord y0 1 1 + k <=? MAXORDINAL)
  then exists y m d,
      normalize_y_m_d y0 1 (1 + k) = Ok (y, m, d)
      /\ Iso8601.days_from_civil y m d = Iso8601.days_from_civil y0 1 1 + k
      /\ 1 <= y <= 9999 /\ 1 <= m <= 12 /\ 1 <= d <= Iso8601.month_length y m
  else normalize_y_m_d y0 1 (1 + k) = Raise OverflowError.
Proof.
  pose proof y0_range as Hy0. pose proof y0_ord as Ho0. pose proof y0_civil as Hc0.
  unfold normalize_y_m_d, MAXORDINAL, MINYEAR, MAXYEAR in *.
  change (days_in_month y0 1) with 31.
  replace (ymd_to_ord y0 1 1 + (1 + k) - 1) with (ymd_to_ord y0 1 1 + k) by lia.
  set (o := ymd_to_ord y0 1 1) in *.
  destruct ((1 <=? o + k) && (o + k <=? 3652059)) eqn:Ein;
    destruct ((1 + k <? 1) || (31 <? 1 + k)) eqn:Eout;
    try (exfalso; lia).
  - destruct (1 + k =? 0) eqn:E0.
    { assert (k = -1) by lia. subst k.
      change (0 <? 1 - 1) with false. cbv iota.
      destruct ((1 <=? y0 - 1) && (y0 - 1 <=? 9999)) eqn:Ey; [|exfalso; lia].
      exists (y0 - 1), 12, 31. split; [reflexivity|].
      split; [|change (Iso8601.month_length (y0 - 1) 12) with 31; lia].
      unfold Iso8601.days_from_civil.
      change (12 <=? 2) with false. change (1 <=? 2) with true.
      change (2 <? 12) with true. change (2 <? 1) with false. cbv iota.
      change ((153 * (12 - 3) + 2) / 5) with 275.
      change ((153 * (1 + 9) + 2) / 5) with 306. lia. }
    destruct (1 + k =? 31 + 1) eqn:E32.
    { assert (k = 31) by lia. subst k.
      change (12 <? 1 + 1) with false. cbv iota.
      destruct ((1 <=? y0) && (y0 <=? 9999)) eqn:Ey; [|exfalso; lia].
      exists y0, 2, 1. split; [reflexivity|].
      split.
      { unfold Iso8601.days_from_civil.
        change (2 <=? 2) with true. change (1 <=? 2) with true.
        change (2 <? 2) with false. change (2 <? 1) with false. cbv iota.
        change ((153 * (2 + 9) + 2) / 5) with 337.
        change ((153 * (1 + 9) + 2) / 5) with 306. lia. }
      unfold Iso8601.month_length. change (2 =? 2) with true. cbv iota.
      destruct (Iso8601.leap_year y0); lia. }
    destruct ((o + k <? 1) || (3652059 <? o + k)) eqn:Eo; [exfalso; lia|].
    destruct (ord_to_ymd_spec (o + k)) as (y & m & d & -> & _ & Hc & Hb);
      [unfold MAXORDINAL; lia|].
    exists y, m, d. split; [reflexivity|]. split; [lia | exact Hb].
  - destruct ((1 <=? y0) && (y0 <=? 9999)) eqn:Ey; [|exfalso; lia].
    exists y0, 1, (1 + k). split; [reflexivity|].
    split; [rewrite (days_from_civil_day y0 1 (1 + k)); lia|].
    change (Iso8601.month_length y0 1) with 31. lia.
  - destruct (1 + k =? 0) eqn:E0; [exfalso; lia|].
    destruct (1 + k =? 31 + 1) eqn:E32; [exfalso; lia|].
    destruct ((o + k <? 1) || (3652059 <? o + k)) eqn:Eo; [reflexivity|exfalso; lia].
Qed.

(** The date [normalize_y_m_d] finds is the civil date of the day. *)
Lemma normalize_epoch_civil (k : Z) (r : Z * Z * Z) :
  normalize_y_m_d y0 1 (1 + k) = Ok r ->
  Sqlite.civil_from_days (Iso8601.days_from_civil y0 1 1 + k) = r.
Proof.
  pose proof y0_range as Hy0. pose proof y0_ord as Ho0. pose proof y0_civil as Hc0.
  assert (Hfirst : -1 <= k <= 31 ->
           Sqlite.civil_from_days (Iso8601.days_from_civil y0 1 1 + k)
           = if k =? -1 then (y0 - 1, 12, 31)
             else if k =? 31 then (y0, 2, 1) else (y0, 1, 1 + k)).
  { intros Hk. pose proof (y0_first_days k Hk) as H. unfold first_days_ok in H.
    destruct (Sqlite.civil_from_days _) as [[y m] d].
    destruct (k =? -1); [|destruct (k =? 31)];
      repeat (apply andb_true_iff in H as [H ?]);
      f_equal; try f_equal; lia. }
  unfold normalize_y_m_d, MAXORDINAL, MINYEAR, MAXYEAR in *.
  change (days_in_month y0 1) with 31.
  replace (ymd_to_ord y0 1 1 + (1 + k) - 1) with (ymd_to_ord y0 1 1 + k) by lia.
  set (o := ymd_to_ord y0 1 1) in *.
  destruct ((1 + k <? 1) || (31 <? 1 + k)) eqn:Eout.
  - destruct (1 + k =? 0) eqn:E0.
    { assert (k = -1) by lia. subst k.
      change (0 <? 1 - 1) with false. cbv iota.
      destruct ((1 <=? y0 - 1) && (y0 - 1 <=? 9999)); [|discriminate].
      intros [= <-]. now rewrite Hfirst by lia. }
    destruct (1 + k =? 31 + 1) eqn:E32.
    { assert (k = 31) by lia. subst k.
      change (12 <? 1 + 1) with false. cbv iota.
      destruct ((1 <=? y0) && (y0 <=? 9999)); [|discriminate].
      intros [= <-]. now rewrite Hfirst by lia. }
    destruct ((o + k <? 1) || (3652059 <? o + k)) eqn:Eo; [discriminate|].
    intros [= <-].
    destruct (ord_to_ymd_spec (o + k)) as (y & m & d & -> & Hc & _);
      [unfold MAXORDINAL; lia|].
    rewrite y0_civil. rewrite <- Hc. f_equal. lia.
  - destruct ((1 <=? y0) && (y0 <=? 9999)); [|discriminate].
    intros [= <-]. rewrite Hfirst by lia.
    destruct (k =? -1) eqn:E1; [lia|]. destruct (k =? 31) eqn:E2; [lia|].
    reflexivity.
Qed.

(** The fields of [epoch + td]. *)
Lemma add_epoch_fields (td : timedelta) (dt : datetime) :
  normalised td ->
  add epoch td = Ok dt ->
  Sqlite.civil_from_days (Iso8601.days_from_civil y0 1 1 + td_days td)
  = (year dt, month dt, day dt)
  /\ time_of_day dt td.
Proof.
  pose proof y0_range as Hy0. pose proof y0_ord as Ho0. pose proof y0_civil as Hc0.
  intros (Hd & Hs & Hus).
  unfold add, epoch.
  cbn [year month day hour minute second microsecond].
  assert (Hp1 : normalize_pair (0 + td_seconds td) (0 + td_microseconds td) 1000000
                = (td_seconds td, td_microseconds td)).
  { unfold normalize_pair.
    replace (_ || _) with false by lia. f_equal; lia. }
  rewrite Hp1.
  assert (Hp2 : forall x, 0 <= x -> normalize_pair 0 x 60 = (x / 60, x mod 60)).
  { intros x Hx. unfold normalize_pair.
    destruct ((x <? 0) || (60 <=? x)) eqn:E; [reflexivity|].
    assert (x < 60) by lia.
    rewrite Z.div_small, Z.mod_small by lia. reflexivity. }
  rewrite Hp2 by lia.
  assert (0 <= td_seconds td / 60 < 1440)
    by (Z.to_euclidean_division_equations; lia).
  rewrite Hp2 by lia.
  assert (Hp3 : normalize_pair (1 + td_days td) (td_seconds td / 60 / 60) 24
                = (1 + td_days td, td_seconds td / 60 / 60)).
  { unfold normalize_pair.
    replace (_ || _) with false
      by (Z.to_euclidean_division_equations; lia).
    reflexivity. }
  rewrite Hp3.
  destruct (normalize_y_m_d y0 1 (1 + td_days td)) as [[[y m] d]|e] eqn:En;
    [|discriminate].
  cbn [mbind result_bind]. intros [= <-].
  cbn [year month day hour minute second microsecond].
  split; [exact (normalize_epoch_civil _ _ En)|].
  unfold time_of_day. cbn [year month day hour minute second microsecond].
  auto.
Qed.

(** [epoch + td] is the instant [td] after the epoch, unless the date
    leaves the years 1 to 9999. *)
Lemma add_epoch (td : timedelta) :
  normalised td ->
  if ordinal_in_range y0 td
  then exists dt,
      add epoch td = Ok dt /\ well_formed dt
      /\ Iso8601.unix_microseconds dt = epoch_us + total_microseconds td
  else add epoch td = Raise OverflowError.
Proof.
  pose proof y0_range as Hy0. pose proof y0_ord as Ho0. pose proof y0_civil as Hc0.
  unfold MAXORDINAL in *.
  intros (Hd & Hs & Hus).
  unfold add, epoch, ordinal_in_range, MAXORDINAL.
  cbn [year month day hour minute second microsecond].
  assert (Hp1 : normalize_pair (0 + td_seconds td) (0 + td_microseconds td) 1000000
                = (td_seconds td, td_microseconds td)).
  { unfold normalize_pair.
    replace (_ || _) with false by lia. f_equal; lia. }
  rewrite Hp1.
  assert (Hp2 : forall x, 0 <= x -> normalize_pair 0 x 60 = (x / 60, x mod 60)).
  { intros x Hx. unfold normalize_pair.
    destruct ((x <? 0) || (60 <=? x)) eqn:E; [reflexivity|].
    assert (x < 60) by lia.
    rewrite Z.div_small, Z.mod_small by lia. reflexivity. }
  rewrite Hp2 by lia.
  assert (0 <= td_seconds td / 60 < 1440)
    by (Z.to_euclidean_division_equations; lia).
  rewrite Hp2 by lia.
  assert (Hp3 : normalize_pair (1 + td_days td) (td_seconds td / 60 / 60) 24
                = (1 + td_days td, td_seconds td / 60 / 60)).
  { unfold normalize_pair.
    replace (_ || _) with false
      by (Z.to_euclidean_division_equations; lia).
    reflexivity. }
  rewrite Hp3.
  pose proof (normalize_epoch_date (td_days td)) as Hn.
  unfold MAXORDINAL in Hn.
  destruct ((1 <=? ymd_to_ord y0 1 1 + td_days td)
            && (ymd_to_ord y0 1 1 + td_days td <=? 3652059)).
  - destruct Hn as (y & m & d & -> & Hc & Hy & Hm & Hdd).
    eexists. split; [reflexivity|].
    unfold well_formed, Iso8601.unix_microseconds, total_microseconds, epoch_us.
    cbn [year month day hour minute second microsecond].
    rewrite Hc.
    repeat split; try lia; Z.to_euclidean_division_equations; lia.
  - rewrite Hn. reflexivity.
Qed.

(** [epoch + timedelta(microseconds=n)]. *)
Lemma microseconds_after_epoch (n : Z) :
  let o := ymd_to_ord y0 1 1 + n / 1000000 / 86400 in
  if (1 <=? o) && (o <=? MAXORDINAL)
  then exists dt,
      (timedelta_microseconds n ≫= add epoch) = Ok dt /\ well_formed dt
      /\ Iso8601.unix_microseconds dt = epoch_us + n
  else raises (timedelta_microseconds n ≫= add epoch).
Proof.
  pose proof y0_range as Hy0. pose proof y0_ord as Ho0. pose proof y0_civil as Hc0.
  unfold MAXORDINAL in *. cbv zeta.
  unfold timedelta_microseconds.
  pose proof (microseconds_to_delta_cases n) as Hd. cbv zeta in Hd.
  unfold MAX_DELTA_DAYS in Hd.
  set (d := n / 1000000 / 86400) in *.
  match type of Hd with
  | if ?b then _ else _ => destruct b eqn:Ed
  end.
  - destruct Hd as (td & Htd & Hdays).
    destruct (microseconds_to_delta_ok _ _ Htd) as [Hnorm Htot].
    rewrite Htd. unfold mbind, result_bind.
    pose proof (add_epoch td Hnorm) as Ha.
    unfold ordinal_in_range, MAXORDINAL in Ha. rewrite Hdays in Ha.
    destruct ((1 <=? ymd_to_ord y0 1 1 + d) && (ymd_to_ord y0 1 1 + d <=? 3652059)).
    + destruct Ha as (dt & Hdt & Hwf & Hus).
      exists dt. rewrite Htot in Hus. auto.
    + rewrite Ha. exact I.
  - rewrite Hd.
    destruct ((1 <=? ymd_to_ord y0 1 1 + d) && (ymd_to_ord y0 1 1 + d <=? 3652059)) eqn:Eo;
      [exfalso; lia | exact I].
Qed.

(** A converter of whole microseconds after the epoch, on any input:
    [lo] and [hi] are the first and the last microsecond of the years 1
    to 9999. *)
Lemma int_converter_cases (v : value) (lo hi : Z) :
  lo = (1 - ymd_to_ord y0 1 1) * 86400000000 ->
  hi = (MAXORDINAL + 1 - ymd_to_ord y0 1 1) * 86400000000 - 1 ->
  let body :=
    n ← Py.int v; td ← timedelta_microseconds n; dt ← add epoch td;
    Ok (isoformat dt) in
  match Py.int v with
  | Raise e => body = Raise e
  | Ok n =>
      if (lo <=? n) && (n <=? hi)
      then exists dt,
          body = Ok (isoformat dt) /\ well_formed dt
          /\ Iso8601.unix_microseconds dt = epoch_us + n
      else raises body
  end.
Proof.
  pose proof y0_range as Hy0. pose proof y0_ord as Ho0. pose proof y0_civil as Hc0.
  intros Hlo Hhi. cbv zeta.
  destruct (Py.int v) as [n|e]; [|reflexivity].
  unfold mbind at 1, result_bind at 1.
  pose proof (microseconds_after_epoch n) as H. cbv zeta in H.
  unfold MAXORDINAL in *.
  set (o := ymd_to_ord y0 1 1) in *.
  assert (Hc : (1 <=? o + n / 1000000 / 86400) && (o + n / 1000000 / 86400 <=? 3652059)
               = (lo <=? n) && (n <=? hi)).
  { subst lo hi. apply eq_true_iff_eq.
    rewrite !andb_true_iff, !Z.leb_le.
    Z.to_euclidean_division_equations. lia. }
  rewrite Hc in H.
  unfold mbind, result_bind in *.
  destruct ((lo <=? n) && (n <=? hi)).
  - destruct H as (dt & Hdt & Hwf & Hus). exists dt.
    destruct (timedelta_microseconds n) as [td|e]; [|discriminate].
    rewrite Hdt. auto.
  - destruct (timedelta_microseconds n) as [td|e]; [|exact I].
    destruct (add epoch td); [destruct H | exact I].
Qed.

End Epoch.

Lemma timedelta_seconds_normalised (f : spec_float) (td : timedelta) :
  timedelta_seconds f = Ok td -> normalised td.
Proof.
  unfold timedelta_seconds.
  destruct (Py.long_of_float f) as [w|e]; [|discriminate].
  unfold mbind, result_bind.
  repeat match goal with
         | |- context [if ?b then _ else _] => destruct b
         end;
    intros H; exact (proj1 (microseconds_to_delta_ok _ _ H)).
Qed.

Lemma parse_empty : Iso8601.parse "" = None.
Proof. reflexivity. Qed.

Lemma valid_isoformat (dt : datetime) :
  well_formed dt -> Iso8601.valid (isoformat dt).
Proof. intros H. unfold Iso8601.valid. rewrite (parse_isoformat dt H). eauto. Qed.

Lemma valid_not_empty (s : string) : Iso8601.valid s -> s <> "".
Proof. intros [dt H] ->. discriminate. Qed.


(** ** Opening a database *)












(** ** [LIMIT] *)

Lemma limit_length {A : Type} (n : Z) (l r : list A) :
  Sqlite.limit n l = Ok r -> 0 <= n -> Z.of_nat (length r) <= n.
Proof.
  unfold Sqlite.limit. destruct (_ && _); [|discriminate].
  intros [= <-] Hn. destruct (n <? 0) eqn:E; [lia|].
  rewrite length_take. lia.
Qed.


Lemma limit_map {A B : Type} (f : A -> B) (n : Z) (l : list A) :
  Sqlite.limit n (List.map f l)
  = match Sqlite.limit n l with
    | Ok r => Ok (List.map f r)
    | Raise e => Raise e
    end.
Proof.
  unfold Sqlite.limit. destruct (_ && _); [|reflexivity].
  destruct (n <? 0); [reflexivity|]. f_equal.
  change (@List.map A B f) with (@fmap list _ A B f). now rewrite fmap_take.
Qed.


(** ** Schema detection *)

(** What [detect_kind] returns on a connection that the database opened. *)
Lemma detect_kind_opened (db_path : string) (fs fs' : Sqlite.filesystem)
    (con : Sqlite.connection) (ts : list Sqlite.table) :
  Sqlite.connect (connect_uri db_path) fs = (Ok con, fs') ->
  Sqlite.c_file con = Sqlite.Database ts ->
  detect_kind db_path fs
  = (Ok (classify (lowered_names (List.map Sqlite.t_name ts))), fs').
Proof.
  intros Hc Hf. unfold detect_kind. rewrite Hc.
  unfold mbind, result_bind, Sqlite.table_names, Sqlite.tables_of.
  rewrite Hf. reflexivity.
Qed.

Lemma elem_of_lowered_names (n : string) (rows : list string) :
  n ∈ lowered_names rows <-> exists r, r ∈ rows /\ lower r = n.
Proof.
  unfold lowered_names. rewrite elem_of_list_to_set, list_elem_of_fmap.
  split; intros (r & H1 & H2); exists r; auto.
Qed.

(** The database at [fs] has a table whose lower-cased name is [n]. *)
Definition has_table (ts : list Sqlite.table) (n : string) : Prop :=
  exists t, t ∈ ts /\ lower (Sqlite.t_name t) = n.

Lemma elem_of_table_names (n : string) (ts : list Sqlite.table) :
  n ∈ lowered_names (List.map Sqlite.t_name ts) <-> has_table ts n.
Proof.
  rewrite elem_of_lowered_names. unfold has_table. split.
  - intros (r & Hr & <-). apply list_elem_of_In, in_map_iff in Hr as (t & <- & Ht).
    exists t. split; [now apply list_elem_of_In | reflexivity].
  - intros (t & Ht & <-). exists (Sqlite.t_name t). split; [|reflexivity].
    apply list_elem_of_In, in_map. now apply list_elem_of_In.
Qed.

(** C1. [detect_kind] lower-cases the table names of the database into a
    set and classifies it by the first rule that matches: [urls] and
    [visits] give chromium; else [moz_places] and [moz_historyvisits] give
    firefox; else [history_items] and [history_visits] give safari; else
    [downloads] gives chromium; else unknown.  In particular the table sets
    of the specification are classified as it says. *)
Theorem detect_kind_first_match (db_path : string) (fs fs' : Sqlite.filesystem)
    (con : Sqlite.connection) (ts : list Sqlite.table) :
  Sqlite.connect (connect_uri db_path) fs = (Ok con, fs') ->
  Sqlite.c_file con = Sqlite.Database ts ->
  let has := has_table ts in
  let r1 := has "urls" /\ has "visits" in
  let r2 := has "moz_places" /\ has "moz_historyvisits" in
  let r3 := has "history_items" /\ has "history_visits" in
  let r4 := has "downloads" in
  exists k,
    detect_kind db_path fs = (Ok k, fs')
    /\ (r1 -> k = chromium)
    /\ (~ r1 -> r2 -> k = firefox)
    /\ (~ r1 -> ~ r2 -> r3 -> k = safari)
    /\ (~ r1 -> ~ r2 -> ~ r3 -> r4 -> k = chromium)
    /\ (~ r1 -> ~ r2 -> ~ r3 -> ~ r4 -> k = unknown)
    /\ classify (lowered_names ["downloads"]) = chromium
    /\ classify (lowered_names ["urls"; "visits"; "downloads"]) = chromium
    /\ classify (lowered_names ["moz_places"; "moz_historyvisits"]) = firefox
    /\ classify (lowered_names ["history_items"; "history_visits"]) = safari
    /\ classify (lowered_names ["foo"; "bar"]) = unknown.
Proof.
  intros Hc Hf has r1 r2 r3 r4.
  eexists. split; [exact (detect_kind_opened _ _ _ _ _ Hc Hf)|].
  set (names := lowered_names (List.map Sqlite.t_name ts)).
  assert (Hin : forall n, n ∈ names <-> has n)
    by (intros n; apply elem_of_table_names).
  assert (H2 : forall a b : string, ({[a; b]} : gset string) ⊆ names <-> has a /\ has b).
  { intros a b. now rewrite union_subseteq, !singleton_subseteq_l, !Hin. }
  refine (conj _ (conj _ (conj _ (conj _ (conj _ _))))).
  1-5: unfold classify; repeat case_bool_decide; try reflexivity;
    repeat match goal with
    | H : _ ⊆ _ |- _ => apply H2 in H
    | H : ~ (_ ⊆ _) |- _ => rewrite H2 in H
    | H : _ ∈ _ |- _ => apply Hin in H
    | H : ~ (_ ∈ _) |- _ => rewrite Hin in H
    end;
    unfold r1, r2, r3, r4 in *; tauto.
  repeat split; vm_compute; reflexivity.
Qed.

Definition c1_fixture : Sqlite.filesystem :=
  {[ "History" := Sqlite.Database
       [Sqlite.mk_table "Downloads" ["id"] []; Sqlite.mk_table "meta" ["key"] []] ]}.

Lemma detect_kind_first_match_witness :
  exists k,
    detect_kind "History" c1_fixture = (Ok k, c1_fixture) /\ k = chromium.
Proof.
  destruct (detect_kind_first_match "History" c1_fixture c1_fixture
              (Sqlite.mk_connection 1 (Sqlite.Database
                 [Sqlite.mk_table "Downloads" ["id"] []; Sqlite.mk_table "meta" ["key"] []]))
              _ ltac:(vm_compute; reflexivity) eq_refl)
    as (k & Hk & _ & _ & _ & H4 & _).
  exists k. split; [exact Hk|].
  assert (E : detect_kind "History" c1_fixture = (Ok chromium, c1_fixture))
    by (vm_compute; reflexivity).
  congruence.
Defined.

(** ** The epoch converters *)

(** Chromium values in range: the timestamp and its instant. *)
Lemma chrome_to_utc_in_range (v : Z) :
  chromium_min <= v <= chromium_max ->
  exists dt,
    chrome_to_utc_body (VInt v) = Ok (isoformat dt) /\ well_formed dt
    /\ Iso8601.unix_microseconds dt = Iso8601.chromium_epoch + v.
Proof.
  unfold chromium_min, chromium_max. intros Hv.
  pose proof (microseconds_after_epoch 1601 epoch_year_1601 v) as H.
  cbv zeta in H. change (ymd_to_ord 1601 1 1) with 584389 in H.
  unfold MAXORDINAL in H.
  destruct ((1 <=? 584389 + v / 1000000 / 86400)
            && (584389 + v / 1000000 / 86400 <=? 3652059)) eqn:E.
  - destruct H as (dt & Hdt & Hwf & Hus). exists dt.
    unfold chrome_to_utc_body. cbn [Py.int]. unfold mbind at 1, result_bind at 1.
    unfold EPOCH_CHROMIUM. unfold mbind, result_bind in *.
    destruct (timedelta_microseconds v) as [td|e]; [|discriminate].
    rewrite Hdt. auto.
  - exfalso. Z.to_euclidean_division_equations. lia.
Qed.

(** [chrome_to_utc] (lines 24-26): for every Chromium value [v] whose
    instant has a year from 1 to 9999 the result is an ISO-8601 UTC
    timestamp that reads back as exactly the instant [v] microseconds
    after 1601-01-01T00:00:00Z. *)
Theorem chrome_to_utc_reads_back (v : Z) :
  chromium_min <= v <= chromium_max ->
  Iso8601.instant (chrome_to_utc (VInt v)) = Some (Iso8601.chromium_epoch + v).
Proof.
  intros Hv. destruct (chrome_to_utc_in_range v Hv) as (dt & Hb & Hwf & Hus).
  unfold chrome_to_utc, Iso8601.instant. rewrite Hb. cbn [try_or_empty].
  rewrite (parse_isoformat dt Hwf). cbn. now rewrite Hus.
Qed.

Lemma chrome_to_utc_reads_back_witness :
  chromium_min <= 13300000000000000 <= chromium_max
  /\ chrome_to_utc (VInt 13300000000000000) = "2022-06-18T04:26:40+00:00"
  /\ Iso8601.instant "2022-06-18T04:26:40+00:00"
     = Some (Iso8601.chromium_epoch + 13300000000000000).
Proof.
  assert (H : chromium_min <= 13300000000000000 <= chromium_max)
    by (unfold chromium_min, chromium_max; lia).
  split; [exact H|]. split; [vm_compute; reflexivity|].
  exact (chrome_to_utc_reads_back 13300000000000000 H).
Defined.

(** [safari_to_utc] on any input. *)
Lemma safari_to_utc_cases (v : value) :
  match Py.float v with
  | Raise e => safari_to_utc_body v = Raise e
  | Ok x =>
      match timedelta_seconds (safari_seconds x) with
      | Raise e => safari_to_utc_body v = Raise e
      | Ok td =>
          if ordinal_in_range 2001 td
          then exists dt,
              safari_to_utc_body v = Ok (isoformat dt) /\ well_formed dt
              /\ Iso8601.unix_microseconds dt
                 = Iso8601.cocoa_epoch + total_microseconds td
          else raises (safari_to_utc_body v)
      end
  end.
Proof.
  unfold safari_to_utc_body.
  destruct (Py.float v) as [x|e]; [|reflexivity].
  cbn [mbind result_bind].
  destruct (timedelta_seconds (safari_seconds x)) as [td|e] eqn:Etd; [|reflexivity].
  cbn [mbind result_bind].
  pose proof (add_epoch 2001 epoch_year_2001 td (timedelta_seconds_normalised _ _ Etd)) as H.
  unfold EPOCH_COCOA.
  destruct (ordinal_in_range 2001 td).
  - destruct H as (dt & -> & Hwf & Hus). exists dt. auto.
  - rewrite H. exact I.
Qed.

Lemma int_converter_total (epoch : datetime) (f : value -> string)
    (body : value -> result string) (lo hi : Z) (v : value) :
  f v = try_or_empty (body v) ->
  match Py.int v with
  | Raise e => body v = Raise e
  | Ok n =>
      if (lo <=? n) && (n <=? hi)
      then exists dt, body v = Ok (isoformat dt) /\ well_formed dt
                      /\ Iso8601.unix_microseconds dt
                         = Iso8601.unix_microseconds epoch + n
      else raises (body v)
  end ->
  (int_malformed lo hi v -> f v = "")
  /\ (~ int_malformed lo hi v -> Iso8601.valid (f v))
  /\ (forall e, body v = Raise e -> f v = "").
Proof.
  intros -> H. unfold int_malformed.
  destruct (Py.int v) as [n|e].
  - destruct ((lo <=? n) && (n <=? hi)) eqn:E.
    + destruct H as (dt & -> & Hwf & _). cbn [try_or_empty].
      repeat split; [lia | intros _; now apply valid_isoformat | discriminate].
    + destruct (body v); [destruct H|]. cbn [try_or_empty].
      repeat split; auto. intros Hn. exfalso. apply Hn. lia.
  - rewrite H. cbn [try_or_empty]. repeat split; auto. intros Hn. now destruct Hn.
Qed.

Lemma chrome_to_utc_total (v : value) :
  (int_malformed chromium_min chromium_max v -> chrome_to_utc v = "")
  /\ (~ int_malformed chromium_min chromium_max v -> Iso8601.valid (chrome_to_utc v))
  /\ (forall e, chrome_to_utc_body v = Raise e -> chrome_to_utc v = "").
Proof.
  apply (int_converter_total EPOCH_CHROMIUM); [reflexivity|].
  exact (int_converter_cases 1601 epoch_year_1601 v
           chromium_min chromium_max eq_refl eq_refl).
Qed.

Lemma firefox_to_utc_total (v : value) :
  (int_malformed firefox_min firefox_max v -> firefox_to_utc v = "")
  /\ (~ int_malformed firefox_min firefox_max v -> Iso8601.valid (firefox_to_utc v))
  /\ (forall e, firefox_to_utc_body v = Raise e -> firefox_to_utc v = "").
Proof.
  apply (int_converter_total EPOCH_UNIX); [reflexivity|].
  exact (int_converter_cases 1970 epoch_year_1970 v
           firefox_min firefox_max eq_refl eq_refl).
Qed.

Lemma safari_to_utc_total (v : value) :
  (safari_malformed v -> safari_to_utc v = "")
  /\ (~ safari_malformed v -> Iso8601.valid (safari_to_utc v))
  /\ (forall e, safari_to_utc_body v = Raise e -> safari_to_utc v = "").
Proof.
  pose proof (safari_to_utc_cases v) as H.
  unfold safari_malformed, safari_to_utc.
  destruct (Py.float v) as [x|e].
  - destruct (timedelta_seconds (safari_seconds x)) as [td|e].
    + destruct (ordinal_in_range 2001 td).
      * destruct H as (dt & -> & Hwf & _). cbn [try_or_empty].
        repeat split; [discriminate | intros _; now apply valid_isoformat | discriminate].
      * destruct (safari_to_utc_body v); [destruct H|]. cbn [try_or_empty].
        repeat split; auto. intros Hn. now destruct Hn.
    + rewrite H. cbn [try_or_empty]. repeat split; auto. intros Hn. now destruct Hn.
  - rewrite H. cbn [try_or_empty]. repeat split; auto. intros Hn. now destruct Hn.
Qed.


(** ** The conversion inside the downloads query *)

(** The fields [chrome_to_utc] writes for a value in range. *)
Lemma chrome_to_utc_fields (v : Z) :
  chromium_min <= v <= chromium_max ->
  exists dt td,
    chrome_to_utc (VInt v) = isoformat dt /\ well_formed dt
    /\ Iso8601.unix_microseconds dt = Iso8601.chromium_epoch + v
    /\ normalised td /\ total_microseconds td = v
    /\ Sqlite.civil_from_days (Iso8601.days_from_civil 1601 1 1 + td_days td)
       = (year dt, month dt, day dt)
    /\ time_of_day dt td.
Proof.
  intros Hv.
  destruct (chrome_to_utc_in_range v Hv) as (dt & Hb & Hwf & Hus).
  unfold chrome_to_utc. rewrite Hb. cbn [try_or_empty].
  unfold chrome_to_utc_body in Hb. cbn [Py.int mbind result_bind] in Hb.
  destruct (timedelta_microseconds v) as [td|e] eqn:Etd; [|discriminate].
  destruct (microseconds_to_delta_ok _ _ Etd) as [Hnorm Htot].
  cbn [mbind result_bind] in Hb.
  destruct (add EPOCH_CHROMIUM td) as [dt'|e] eqn:Eadd; [|discriminate].
  cbn [mbind result_bind] in Hb.
  pose proof (add_epoch 1601 epoch_year_1601 td Hnorm) as Ha.
  pose proof (add_epoch_fields 1601 epoch_year_1601 td dt'
                Hnorm Eadd) as [Hdate Htime].
  unfold EPOCH_CHROMIUM in Eadd. rewrite Eadd in Ha.
  destruct (ordinal_in_range 1601 td); [|discriminate].
  destruct Ha as (dt2 & [= <-] & Hwf' & Hus').
  exists dt', td. rewrite Htot in Hus'.
  assert (Hiso : isoformat dt = isoformat dt') by congruence.
  rewrite Hiso. split; [reflexivity|]. split; [exact Hwf'|].
  split; [exact Hus'|]. auto.
Qed.

(** The conversion inside the downloads query (lines 103-106) and
    [chrome_to_utc] (lines 24-26): for every non-negative Chromium value in
    range the two give the same UTC date
    and the same hour, minute and whole second; the query writes them as
    [YYYY-MM-DD HH:MM:SS], without the fraction and the offset that
    [chrome_to_utc] writes. *)
Theorem query_utc_same_second (v : Z) :
  0 <= v <= chromium_max ->
  exists dt,
    well_formed dt
    /\ chrome_to_utc (VInt v) = isoformat dt
    /\ Iso8601.unix_microseconds dt = Iso8601.chromium_epoch + v
    /\ query_utc (VInt v)
       = VStr (Sqlite.format_fields
                 (year dt, month dt, day dt, hour dt, minute dt, second dt)).
Proof.
  intros Hv.
  destruct (chrome_to_utc_fields v ltac:(unfold chromium_min; lia))
    as (dt & td & Hiso & Hwf & Hus & Hnorm & Htot & Hdate & Htime).
  exists dt. repeat split; auto; try apply Hwf.
  unfold chromium_max in Hv.
  unfold query_utc, Sqlite.number_of, Sqlite.divide.
  change (1000000 =? 0) with false. cbv iota.
  rewrite Z.quot_div_nonneg by lia.
  assert (Hq : 0 <= v / 1000000 <= 265046774399)
    by (Z.to_euclidean_division_equations; lia).
  replace (Sqlite.in_int64 (v / 1000000)) with true
    by (unfold Sqlite.in_int64, Sqlite.INT64_MIN, Sqlite.INT64_MAX; lia).
  unfold Sqlite.subtract.
  replace (Sqlite.in_int64 (v / 1000000 - 11644473600)) with true
    by (unfold Sqlite.in_int64, Sqlite.INT64_MIN, Sqlite.INT64_MAX; lia).
  unfold Sqlite.datetime_unixepoch, Sqlite.julian_of_unix,
    Sqlite.JD_UNIX_EPOCH, Sqlite.JD_END.
  replace ((0 <=? (v / 1000000 - 11644473600) * 1000 + 210866760000000)
           && ((v / 1000000 - 11644473600) * 1000 + 210866760000000 <? 464269060800000))
    with true by lia.
  f_equal. f_equal.
  unfold Sqlite.fields_of_julian.
  destruct Hnorm as (Hd & Hs & Hmu). destruct Htime as (Hh & Hmi & Hsec & _).
  unfold total_microseconds in Htot.
  change (Iso8601.days_from_civil 1601 1 1) with (-134774) in Hdate.
  replace (((v / 1000000 - 11644473600) * 1000 + 210866760000000 + 43200000)
           / 86400000 - 2440588) with (-134774 + td_days td)
    by (Z.to_euclidean_division_equations; lia).
  rewrite Hdate, Hh, Hmi, Hsec.
  f_equal; [f_equal; [f_equal|]|]; Z.to_euclidean_division_equations; lia.
Qed.

Lemma query_utc_same_second_witness :
  0 <= 13300000000000000 <= chromium_max
  /\ exists dt,
      well_formed dt
      /\ chrome_to_utc (VInt 13300000000000000) = isoformat dt
      /\ Iso8601.unix_microseconds dt = Iso8601.chromium_epoch + 13300000000000000
      /\ query_utc (VInt 13300000000000000)
         = VStr (Sqlite.format_fields
                   (year dt, month dt, day dt, hour dt, minute dt, second dt)).
Proof.
  assert (H : 0 <= 13300000000000000 <= chromium_max)
    by (unfold chromium_max; lia).
  split; [exact H|]. exact (query_utc_same_second 13300000000000000 H).
Defined.

(** The two conversions of one value give different strings. *)
Lemma query_utc_differs :
  query_utc (VInt 13300000000000000) = VStr "2022-06-18 04:26:40"
  /\ chrome_to_utc (VInt 13300000000000000) = "2022-06-18T04:26:40+00:00"
  /\ query_utc (VInt 13300000000000000)
     <> VStr (chrome_to_utc (VInt 13300000000000000)).
Proof.
  assert (H1 : query_utc (VInt 13300000000000000) = VStr "2022-06-18 04:26:40")
    by (vm_compute; reflexivity).
  assert (H2 : chrome_to_utc (VInt 13300000000000000) = "2022-06-18T04:26:40+00:00")
    by (vm_compute; reflexivity).
  split; [exact H1|]. split; [exact H2|].
  rewrite H1, H2. discriminate.
Qed.

(** ** More on the epoch converters *)

(** [firefox_to_utc] (lines 28-30): for every value whose instant has a
    year from 1 to 9999 the result reads back as exactly that many
    microseconds after 1970-01-01T00:00:00Z. *)
Theorem firefox_to_utc_reads_back (v : Z) :
  firefox_min <= v <= firefox_max ->
  Iso8601.instant (firefox_to_utc (VInt v)) = Some v.
Proof.
  intros Hv.
  pose proof (int_converter_cases 1970 epoch_year_1970 (VInt v)
                firefox_min firefox_max eq_refl eq_refl) as H.
  cbv zeta in H. cbn [Py.int] in H.
  replace ((firefox_min <=? v) && (v <=? firefox_max)) with true in H by lia.
  destruct H as (dt & Hb & Hwf & Hus).
  unfold firefox_to_utc, firefox_to_utc_body, EPOCH_UNIX, Iso8601.instant.
  cbn [Py.int]. rewrite Hb. cbn [try_or_empty].
  rewrite (parse_isoformat dt Hwf). cbn. rewrite Hus. f_equal.
Qed.

Lemma firefox_to_utc_reads_back_witness :
  firefox_min <= 1655526400000000 <= firefox_max
  /\ Iso8601.instant (firefox_to_utc (VInt 1655526400000000))
     = Some 1655526400000000.
Proof.
  assert (H : firefox_min <= 1655526400000000 <= firefox_max)
    by (unfold firefox_min, firefox_max; lia).
  split; [exact H|]. exact (firefox_to_utc_reads_back 1655526400000000 H).
Defined.

(** [chrome_to_utc] (lines 24-26) never gives two valid values the same
    timestamp. *)
Theorem chrome_to_utc_injective (v w : Z) :
  chromium_min <= v <= chromium_max ->
  chromium_min <= w <= chromium_max ->
  chrome_to_utc (VInt v) = chrome_to_utc (VInt w) ->
  v = w.
Proof.
  intros Hv Hw.
  destruct (chrome_to_utc_in_range v Hv) as (dv & Hbv & Hwv & Huv).
  destruct (chrome_to_utc_in_range w Hw) as (dw & Hbw & Hww & Huw).
  unfold chrome_to_utc. rewrite Hbv, Hbw. cbn [try_or_empty]. intros H.
  assert (E : Some dv = Some dw)
    by (rewrite <- (parse_isoformat dv Hwv), <- (parse_isoformat dw Hww); now rewrite H).
  injection E as ->. lia.
Qed.

Lemma chrome_to_utc_injective_witness :
  chromium_min <= 5 <= chromium_max /\ chromium_min <= 5 <= chromium_max
  /\ chrome_to_utc (VInt 5) = chrome_to_utc (VInt 5) /\ 5 = 5.
Proof.
  assert (H : chromium_min <= 5 <= chromium_max)
    by (unfold chromium_min, chromium_max; lia).
  split; [exact H|]. split; [exact H|]. split; [reflexivity|].
  exact (chrome_to_utc_injective 5 5 H H eq_refl).
Defined.

(** The fields [firefox_to_utc] writes for a value in range. *)
Lemma firefox_to_utc_fields (v : Z) :
  firefox_min <= v <= firefox_max ->
  exists dt td,
    firefox_to_utc (VInt v) = isoformat dt /\ well_formed dt
    /\ normalised td /\ total_microseconds td = v
    /\ Sqlite.civil_from_days (Iso8601.days_from_civil 1970 1 1 + td_days td)
       = (year dt, month dt, day dt)
    /\ time_of_day dt td.
Proof.
  intros Hv.
  pose proof (int_converter_cases 1970 epoch_year_1970 (VInt v)
                firefox_min firefox_max eq_refl eq_refl) as H.
  cbv zeta in H. cbn [Py.int] in H.
  replace ((firefox_min <=? v) && (v <=? firefox_max)) with true in H by lia.
  destruct H as (dt & Hb & Hwf & _).
  unfold firefox_to_utc, firefox_to_utc_body, EPOCH_UNIX.
  cbn [Py.int]. rewrite Hb. cbn [try_or_empty].
  cbn [mbind result_bind] in Hb.
  destruct (timedelta_microseconds v) as [td|e] eqn:Etd; [|discriminate].
  destruct (microseconds_to_delta_ok _ _ Etd) as [Hnorm Htot].
  cbn [mbind result_bind] in Hb.
  destruct (add (mk_datetime 1970 1 1 0 0 0 0) td) as [dt'|e] eqn:Eadd; [|discriminate].
  cbn [mbind result_bind] in Hb.
  pose proof (add_epoch 1970 epoch_year_1970 td Hnorm) as Ha.
  pose proof (add_epoch_fields 1970 epoch_year_1970 td dt' Hnorm Eadd)
    as [Hdate Htime].
  rewrite Eadd in Ha.
  destruct (ordinal_in_range 1970 td); [|discriminate].
  destruct Ha as (dt2 & [= <-] & Hwf' & _).
  exists dt', td.
  assert (Hiso : isoformat dt = isoformat dt') by congruence.
  rewrite Hiso. auto 10.
Qed.

Lemma datetime_eq (a b : datetime) (ta tb : timedelta) :
  (year a, month a, day a) = (year b, month b, day b) ->
  time_of_day a ta -> time_of_day b tb ->
  td_seconds ta = td_seconds tb -> td_microseconds ta = td_microseconds tb ->
  a = b.
Proof.
  destruct a, b. unfold time_of_day. cbn.
  intros [= -> -> ->] (-> & -> & -> & ->) (-> & -> & -> & ->) -> ->.
  reflexivity.
Qed.

(** [chrome_to_utc] and [firefox_to_utc] (lines 24-30) write the same
    timestamp for the same instant: a Firefox value and the Chromium
    value 11644473600 seconds larger, the distance of the two epochs. *)
Theorem chrome_firefox_agree (v : Z) :
  firefox_min <= v <= firefox_max ->
  chrome_to_utc (VInt (v + 11644473600000000)) = firefox_to_utc (VInt v).
Proof.
  intros Hv.
  destruct (firefox_to_utc_fields v Hv)
    as (dt & td & -> & _ & Hn & Ht & Hd & Htime).
  destruct (chrome_to_utc_fields (v + 11644473600000000))
    as (dt' & td' & -> & _ & _ & Hn' & Ht' & Hd' & Htime').
  { unfold firefox_min, firefox_max, chromium_min, chromium_max in *. lia. }
  f_equal.
  unfold normalised, total_microseconds in *.
  assert (td_days td' = td_days td + 134774
          /\ td_seconds td' = td_seconds td
          /\ td_microseconds td' = td_microseconds td) as (Ed & Es & Eu) by lia.
  apply (datetime_eq dt' dt td' td); auto.
  rewrite <- Hd, <- Hd'. f_equal.
  change (Iso8601.days_from_civil 1601 1 1) with (-134774).
  change (Iso8601.days_from_civil 1970 1 1) with 0. lia.
Qed.

Lemma chrome_firefox_agree_witness :
  firefox_min <= 1655526400000000 <= firefox_max
  /\ chrome_to_utc (VInt (1655526400000000 + 11644473600000000))
     = firefox_to_utc (VInt 1655526400000000).
Proof.
  assert (H : firefox_min <= 1655526400000000 <= firefox_max)
    by (unfold firefox_min, firefox_max; lia).
  split; [exact H|]. exact (chrome_firefox_agree 1655526400000000 H).
Defined.

(** *** [safari_to_utc] *)

Lemma gt_negative (x c : spec_float) :
  is_negative x = true -> is_negative c = false -> Py.gt x c = false.
Proof.
  unfold Py.gt, SFltb.
  destruct x as [s|s| |s m e], c as [t|t| |t n f]; cbn;
    intros -> Hc; try rewrite Hc; reflexivity || discriminate.
Qed.

Lemma gt_below_1e10 (x : spec_float) :
  Py.gt x f1e10 = false -> Py.gt x f1e11 = false /\ Py.gt x f1e14 = false.
Proof.
  unfold Py.gt, SFltb, f1e10, f1e11, f1e14.
  destruct x as [s|s| |s m e]; cbn [SFcompare]; try destruct s; auto;
    try discriminate.
  destruct (Z.compare_spec (-19) e) as [<-|H|H]; [auto | discriminate |].
  intros _.
  destruct (Z.compare_spec (-16) e); [lia | lia |].
  destruct (Z.compare_spec (-6) e); [lia | lia |]. auto.
Qed.

(** The seconds of a negative value are the value: the three thresholds
    are compared with the signed value. *)
Lemma safari_seconds_negative (x : spec_float) :
  is_negative x = true -> safari_seconds x = x.
Proof.
  intros H. unfold safari_seconds.
  now rewrite !(gt_negative x) by (exact H || reflexivity).
Qed.

(** [safari_to_utc] (lines 32-40): the seconds are the value divided by
    1e9, 1e6 or 1e3 when it is greater than 1e14, 1e11 or 1e10, and the
    value itself otherwise -- in particular for every negative value,
    however large its magnitude.  The result is the empty string when the
    seconds are no duration or the date leaves the years 1 to 9999, and
    else reads back as the instant that duration after
    2001-01-01T00:00:00Z. *)
Theorem safari_to_utc_bands (v : value) (x : spec_float) :
  Py.float v = Ok x ->
  let seconds := safari_seconds x in
  ((Py.gt x f1e14 = true /\ seconds = Py.div x f1e9)
   \/ (Py.gt x f1e14 = false /\ Py.gt x f1e11 = true /\ seconds = Py.div x f1e6)
   \/ (Py.gt x f1e14 = false /\ Py.gt x f1e11 = false /\ Py.gt x f1e10 = true
       /\ seconds = Py.div x f1e3)
   \/ (Py.gt x f1e14 = false /\ Py.gt x f1e11 = false /\ Py.gt x f1e10 = false
       /\ seconds = x))
  /\ (is_negative x = true -> seconds = x)
  /\ match timedelta_seconds seconds with
     | Ok td =>
         if ordinal_in_range 2001 td
         then Iso8601.instant (safari_to_utc v)
              = Some (Iso8601.cocoa_epoch + total_microseconds td)
         else safari_to_utc v = ""
     | Raise _ => safari_to_utc v = ""
     end.
Proof.
  intros Hx seconds. split; [|split].
  - unfold seconds, safari_seconds.
    destruct (Py.gt x f1e14); [auto|].
    destruct (Py.gt x f1e11); [auto|].
    destruct (Py.gt x f1e10); auto 10.
  - apply safari_seconds_negative.
  - pose proof (safari_to_utc_cases v) as H. rewrite Hx in H.
    fold seconds in H. unfold safari_to_utc.
    destruct (timedelta_seconds seconds) as [td|e].
    + destruct (ordinal_in_range 2001 td).
      * destruct H as (dt & -> & Hwf & Hus). cbn [try_or_empty].
        unfold Iso8601.instant. rewrite (parse_isoformat dt Hwf). cbn.
        now rewrite Hus.
      * destruct (safari_to_utc_body v); [destruct H | reflexivity].
    + now rewrite H.
Qed.

Lemma safari_to_utc_bands_witness :
  Py.float (VFloat minus_2e14) = Ok minus_2e14
  /\ safari_seconds minus_2e14 = minus_2e14
  /\ safari_to_utc (VFloat minus_2e14) = "".
Proof.
  pose proof (safari_to_utc_bands (VFloat minus_2e14) minus_2e14 eq_refl)
    as (_ & Hneg & Hres).
  split; [reflexivity|]. split; [exact (Hneg eq_refl)|].
  rewrite (Hneg eq_refl) in Hres. exact Hres.
Defined.

(** [safari_to_utc] (lines 32-40) is exact on whole seconds: a float that
    is a whole number [k] of seconds, not greater than 1e10 and not before
    the year 1, gives the timestamp of exactly [k] seconds after
    2001-01-01T00:00:00Z. *)
Theorem safari_whole_seconds (x : spec_float) (k : Z) :
  Py.long_of_float x = Ok k ->
  Py.is_zero (Py.frac x) = true ->
  Py.gt x f1e10 = false ->
  cocoa_min_seconds <= k <= 10000000000 ->
  Iso8601.instant (safari_to_utc (VFloat x))
  = Some (Iso8601.cocoa_epoch + k * 1000000).
Proof.
  intros Hk Hfrac Hgt Hrange.
  destruct (gt_below_1e10 x Hgt) as [H11 H14].
  unfold safari_to_utc, safari_to_utc_body. cbn [Py.float mbind result_bind].
  unfold safari_seconds. rewrite H14, H11, Hgt.
  unfold timedelta_seconds. rewrite Hk. cbn [mbind result_bind].
  rewrite Hfrac.
  pose proof (microseconds_after_epoch 2001 epoch_year_2001 (k * 1000000)) as H.
  cbv zeta in H. unfold timedelta_microseconds in H.
  change (ymd_to_ord 2001 1 1) with 730486 in H. unfold MAXORDINAL in H.
  unfold cocoa_min_seconds in Hrange.
  replace ((1 <=? 730486 + k * 1000000 / 1000000 / 86400)
           && (730486 + k * 1000000 / 1000000 / 86400 <=? 3652059))
    with true in H by (Z.to_euclidean_division_equations; lia).
  destruct H as (dt & Hdt & Hwf & Hus).
  unfold EPOCH_COCOA.
  destruct (microseconds_to_delta (k * 1000000)) as [td|e]; [|discriminate].
  cbn [mbind result_bind] in *. rewrite Hdt. cbn [mbind result_bind try_or_empty].
  unfold Iso8601.instant. rewrite (parse_isoformat dt Hwf). cbn.
  now rewrite Hus.
Qed.

Lemma safari_whole_seconds_witness :
  Py.long_of_float f677222800 = Ok 677222800
  /\ safari_to_utc (VFloat f677222800) = "2022-06-18T05:26:40+00:00"
  /\ Iso8601.instant (safari_to_utc (VFloat f677222800))
     = Some (Iso8601.cocoa_epoch + 677222800 * 1000000).
Proof.
  split; [reflexivity|]. split; [vm_compute; reflexivity|].
  apply (safari_whole_seconds f677222800 677222800);
    [reflexivity | reflexivity | reflexivity | unfold cocoa_min_seconds; lia].
Defined.

(** ** More on the downloads query *)

(** The conversion inside the downloads query (lines 103-106) on a 64-bit
    integer: NULL exactly when the second falls outside the dates SQLite
    can write, from -4713-11-24 12:00:00 to 9999-12-31 23:59:59. *)
Theorem query_utc_null_range (v : Z) :
  Sqlite.in_int64 v = true ->
  (query_utc (VInt v) = VNone
   <-> v < -199222286400999999 \/ 265046774399999999 < v).
Proof.
  unfold Sqlite.in_int64, Sqlite.INT64_MIN, Sqlite.INT64_MAX. intros Hv.
  change (- 2 ^ 63) with (-9223372036854775808) in Hv.
  change (2 ^ 63 - 1) with 9223372036854775807 in Hv.
  unfold query_utc, Sqlite.number_of, Sqlite.divide.
  change (1000000 =? 0) with false. cbv iota.
  set (q := Z.quot v 1000000).
  assert (Hq : v = 1000000 * q + Z.rem v 1000000) by apply Z.quot_rem'.
  assert (Hr : Z.abs (Z.rem v 1000000) < 1000000)
    by (apply Z.rem_bound_abs; lia).
  assert (Hs : 0 <= Z.rem v 1000000 * v)
    by (apply Z.rem_sign_mul; lia).
  assert (Hq1 : -9223372036855 < q < 9223372036855) by nia.
  replace (Sqlite.in_int64 q) with true
    by (unfold Sqlite.in_int64, Sqlite.INT64_MIN, Sqlite.INT64_MAX; lia).
  unfold Sqlite.subtract.
  replace (Sqlite.in_int64 (q - 11644473600)) with true
    by (unfold Sqlite.in_int64, Sqlite.INT64_MIN, Sqlite.INT64_MAX; lia).
  unfold Sqlite.datetime_unixepoch, Sqlite.julian_of_unix,
    Sqlite.JD_UNIX_EPOCH, Sqlite.JD_END.
  destruct ((0 <=? (q - 11644473600) * 1000 + 210866760000000)
            && ((q - 11644473600) * 1000 + 210866760000000 <? 464269060800000))
    eqn:E.
  - split; [discriminate|]. intros H. exfalso. nia.
  - split; [|reflexivity]. intros _. nia.
Qed.


(** ** Opening the source file *)





(** ** What [query_rows] yields *)



(** [query_rows] (lines 59, 99-100): when the table type is neither
    [urls] nor [downloads], or is [downloads] for a family other than
    chromium, no query is run and nothing is yielded, whatever the limit
    is -- the limit is not even converted -- provided the file opens. *)
Theorem query_rows_nothing_to_read (p : string) (k : kind) (table_type : string)
    (limit : value) (fs fs' : Sqlite.filesystem) (con : Sqlite.connection) :
  Sqlite.connect (connect_uri p) fs = (Ok con, fs') ->
  table_type <> "urls" ->
  table_type <> "downloads" \/ k <> chromium ->
  query_rows p k table_type limit fs = (Ok [], fs').
Proof.
  intros Hc Hu Hd. unfold query_rows. rewrite Hc. cbn [mbind result_bind].
  destruct (String.eqb_spec table_type "urls"); [contradiction|].
  destruct (String.eqb_spec table_type "downloads"); [|reflexivity].
  destruct k; try reflexivity. destruct Hd; contradiction.
Qed.

Lemma query_rows_nothing_to_read_witness :
  query_rows "places.sqlite" firefox "downloads" (VStr "many") firefox_fixture
  = (Ok [], firefox_fixture).
Proof.
  apply (query_rows_nothing_to_read _ _ _ _ _ _
           (Sqlite.mk_connection 1 (Sqlite.Database
              [Sqlite.mk_table "moz_places" ["id"; "url"; "title"] [];
               Sqlite.mk_table "moz_historyvisits" ["id"; "place_id"; "visit_date"] []]))).
  - vm_compute. reflexivity.
  - discriminate.
  - right. discriminate.
Defined.

Lemma select_joined_limited (con : Sqlite.connection) (a b c d : string) :
  limited (select_joined con a b c d).
Proof.
  unfold limited, select_joined.
  repeat match goal with
         | |- context [mbind _ ?m] =>
             lazymatch m with
             | Sqlite.limit _ _ => fail
             | _ => destruct m; cbn [mbind result_bind]; [|left; eauto]
             end
         end.
  right. eauto.
Qed.

Lemma select_visits_limited (con : Sqlite.connection) (k : kind) :
  limited (fun n => match select_visits con k n with
                    | Ok rows => Ok (List.map (visit_record k) rows)
                    | Raise e => Raise e
                    end).
Proof.
  assert (H : limited (select_visits con k)).
  { destruct k; unfold select_visits;
      try exact (select_joined_limited con _ _ _ _).
    unfold limited, select_urls.
    repeat match goal with
           | |- context [mbind _ ?m] =>
               lazymatch m with
               | Sqlite.limit _ _ => fail
               | _ => destruct m; cbn [mbind result_bind]; [|left; eauto]
               end
           end.
    right. eauto. }
  destruct H as [[e H]|[all H]].
  - left. exists e. intros n. now rewrite H.
  - right. exists (List.map (visit_record k) all). intros n.
    now rewrite H, limit_map.
Qed.

Lemma select_downloads_limited (con : Sqlite.connection) :
  limited (select_downloads con).
Proof.
  unfold limited, select_downloads.
  destruct (Sqlite.find_table "downloads" con) as [t|e];
    cbn [mbind result_bind]; [|left; eauto].
  destruct (columns download_columns t) as [idx|e];
    cbn [mbind result_bind]; [|left; eauto].
  destruct (Sqlite.column "start_time" t) as [start|e];
    cbn [mbind result_bind]; [|left; eauto].
  right.
  exists (List.map (download_record idx)
            (Sqlite.order_by_desc (fun r => Sqlite.cell r start) (Sqlite.t_rows t))).
  intros n. rewrite limit_map.
  destruct (Sqlite.limit n _); reflexivity.
Qed.

(** [query_rows] with the limit [n] when it runs a query. *)
Lemma query_rows_limited (p : string) (k : kind) (table_type : string)
    (fs fs' : Sqlite.filesystem) (con : Sqlite.connection) :
  Sqlite.connect (connect_uri p) fs = (Ok con, fs') ->
  (exists e, forall lim, (exists n, Py.int lim = Ok n) ->
      query_rows p k table_type lim fs = (Raise e, fs'))
  \/ (forall lim, query_rows p k table_type lim fs = (Ok [], fs'))
  \/ (exists all, forall lim n, Py.int lim = Ok n ->
        query_rows p k table_type lim fs = (Sqlite.limit n all, fs')).
Proof.
  intros Hc. unfold query_rows. rewrite Hc. cbn [mbind result_bind].
  destruct (String.eqb table_type "urls").
  - destruct (select_visits_limited con k) as [[e H]|[all H]].
    + left. exists e. intros lim [n Hn]. rewrite Hn. cbn [mbind result_bind].
      specialize (H n). destruct (select_visits con k n); [discriminate|].
      cbn [mbind result_bind]. congruence.
    + right. right. exists all. intros lim n Hn. rewrite Hn.
      cbn [mbind result_bind]. specialize (H n).
      destruct (select_visits con k n); cbn [mbind result_bind]; congruence.
  - destruct (String.eqb table_type "downloads"); [|right; left; reflexivity].
    destruct k; try (right; left; reflexivity).
    destruct (select_downloads_limited con) as [[e H]|[all H]].
    + left. exists e. intros lim [n Hn]. rewrite Hn. cbn [mbind result_bind].
      now rewrite H.
    + right. right. exists all. intros lim n Hn. rewrite Hn.
      cbn [mbind result_bind]. now rewrite H.
Qed.

Lemma query_rows_opens (p : string) (k : kind) (table_type : string)
    (lim : value) (fs fs' : Sqlite.filesystem) (rows : list record) :
  query_rows p k table_type lim fs = (Ok rows, fs') ->
  exists con, Sqlite.connect (connect_uri p) fs = (Ok con, fs').
Proof.
  unfold query_rows.
  destruct (Sqlite.connect (connect_uri p) fs) as [[con|e] fs1];
    cbn [mbind result_bind]; [|discriminate].
  intros [= _ <-]. eauto.
Qed.

Lemma query_rows_count (p : string) (k : kind) (table_type : string)
    (lim : value) (n : Z) (fs fs' : Sqlite.filesystem) (rows : list record) :
  query_rows p k table_type lim fs = (Ok rows, fs') ->
  Py.int lim = Ok n -> 0 <= n ->
  Z.of_nat (length rows) <= n.
Proof.
  intros Hq Hn Hpos.
  destruct (query_rows_opens _ _ _ _ _ _ _ Hq) as [con Hc].
  destruct (query_rows_limited p k table_type fs fs' con Hc)
    as [[e H]|[H|[all H]]].
  - rewrite H in Hq by eauto. discriminate.
  - rewrite H in Hq. injection Hq as <-. cbn. lia.
  - rewrite (H lim n Hn) in Hq. injection Hq as Hq.
    exact (limit_length _ _ _ Hq Hpos).
Qed.


(** [query_rows] (lines 68, 78, 88, 91, 109): with a limit that [int]
    turns into [n >= 0], at most [n] records are yielded. *)
Theorem query_rows_at_most_limit (p : string) (k : kind) (table_type : string)
    (lim : value) (n : Z) (fs fs' : Sqlite.filesystem) (rows : list record) :
  query_rows p k table_type lim fs = (Ok rows, fs') ->
  Py.int lim = Ok n -> 0 <= n ->
  Z.of_nat (length rows) <= n.
Proof.
  intros Hq Hn Hpos.
  destruct (query_rows_opens _ _ _ _ _ _ _ Hq) as [con Hc].
  destruct (query_rows_limited p k table_type fs fs' con Hc)
    as [[e H]|[H|[all H]]].
  - rewrite H in Hq by eauto. discriminate.
  - rewrite H in Hq. injection Hq as <-. cbn. lia.
  - rewrite (H lim n Hn) in Hq. injection Hq as Hq.
    exact (limit_length _ _ _ Hq Hpos).
Qed.


(** The fixture, run. *)
Lemma fixture_visits_2_run :
  query_rows "History" chromium "urls" (VInt 2) chromium_fixture
  = (Ok fixture_visits_2, chromium_fixture).
Proof. reflexivity. Qed.



Lemma fixture_upload_run :
  fixture_upload
  = (Ok fixture_visits_2, <["tok" := mk_meta "History" chromium "urls"]> ∅,
     chromium_fixture).
Proof. reflexivity. Qed.

Lemma query_rows_at_most_limit_witness :
  query_rows "History" chromium "urls" (VInt 2) chromium_fixture
  = (Ok fixture_visits_2, chromium_fixture)
  /\ Z.of_nat (length fixture_visits_2) <= 2.
Proof.
  pose proof fixture_visits_2_run as E.
  split; [exact E|].
  exact (query_rows_at_most_limit _ _ _ _ 2 _ _ _ E eq_refl ltac:(lia)).
Defined.


(** ** The shape of the records *)

Lemma int_converter_empty_or_valid (epoch : datetime) (f : value -> string)
    (body : value -> result string) (lo hi : Z) (v : value) :
  (int_malformed lo hi v -> f v = "") ->
  (~ int_malformed lo hi v -> Iso8601.valid (f v)) ->
  f v = "" \/ Iso8601.valid (f v).
Proof.
  intros H1 H2. unfold int_malformed in *.
  destruct (Py.int v) as [n|e]; [|auto].
  destruct (Z_lt_le_dec n lo); [auto|]. destruct (Z_lt_le_dec hi n); [auto|].
  right. apply H2. lia.
Qed.

(** Every timestamp of a visit is the empty string or an ISO-8601 UTC
    timestamp. *)
Lemma visited_utc_empty_or_valid (k : kind) (raw : value) :
  visited_utc k raw = "" \/ Iso8601.valid (visited_utc k raw).
Proof.
  destruct (chrome_to_utc_total raw) as (C1 & C2 & _).
  destruct (firefox_to_utc_total raw) as (F1 & F2 & _).
  destruct (safari_to_utc_total raw) as (S1 & S2 & _).
  destruct k; cbn [visited_utc].
  - exact (int_converter_empty_or_valid EPOCH_CHROMIUM _ chrome_to_utc_body _ _ _ C1 C2).
  - exact (int_converter_empty_or_valid EPOCH_UNIX _ firefox_to_utc_body _ _ _ F1 F2).
  - unfold safari_malformed in *.
    destruct (Py.float raw) as [x|e]; [|auto].
    destruct (timedelta_seconds (safari_seconds x)) as [td|e]; [|auto].
    destruct (ordinal_in_range 2001 td); [right; apply S2; discriminate | auto].
  - exact (int_converter_empty_or_valid EPOCH_CHROMIUM _ chrome_to_utc_body _ _ _ C1 C2).
Qed.

Lemma visit_dict (i u t c : value) :
  let r : record := list_to_map [("id", i); ("url", u); ("title", t); ("utc", c)] in
  r !! "id" = Some i /\ r !! "url" = Some u /\ r !! "title" = Some t
  /\ r !! "utc" = Some c
  /\ dom r = ({["id"; "url"; "title"; "utc"]} : gset string).
Proof. cbv zeta. repeat split; vm_compute; reflexivity. Qed.

Lemma or_empty_truthy (v : value) : or_empty v = VStr "" \/ truthy (or_empty v) = true.
Proof.
  unfold or_empty. destruct (truthy v) eqn:E; [right; exact E | left; reflexivity].
Qed.

Lemma query_rows_urls (p : string) (k : kind) (lim : value)
    (fs fs' : Sqlite.filesystem) (rows : list record) :
  query_rows p k "urls" lim fs = (Ok rows, fs') ->
  exists vr, rows = List.map (visit_record k) vr.
Proof.
  unfold query_rows.
  destruct (Sqlite.connect (connect_uri p) fs) as [[con|e] fs1];
    cbn [mbind result_bind]; [|discriminate].
  change (String.eqb "urls" "urls") with true. cbv iota.
  destruct (Py.int lim) as [n|e]; cbn [mbind result_bind]; [|discriminate].
  destruct (select_visits con k n) as [vr|e]; cbn [mbind result_bind];
    [|discriminate].
  intros [= <- _]. eauto.
Qed.

(** [query_rows] for [urls] (line 97): every record has exactly the keys
    [id], [url], [title] and [utc]; the title is never a false value other
    than the empty string ([None] becomes the empty string); [utc] is a
    string, empty or an ISO-8601 UTC timestamp. *)
Theorem visit_records_shape (p : string) (k : kind) (lim : value)
    (fs fs' : Sqlite.filesystem) (rows : list record) (r : record) :
  query_rows p k "urls" lim fs = (Ok rows, fs') ->
  r ∈ rows ->
  dom r = ({["id"; "url"; "title"; "utc"]} : gset string)
  /\ (exists t, r !! "title" = Some t /\ (t = VStr "" \/ truthy t = true))
  /\ (exists s, r !! "utc" = Some (VStr s) /\ (s = "" \/ Iso8601.valid s)).
Proof.
  intros Hq Hr. destruct (query_rows_urls _ _ _ _ _ _ Hq) as [vr ->].
  apply list_elem_of_In, in_map_iff in Hr as (row & <- & _).
  unfold visit_record.
  destruct (visit_dict (visit_id row) (url row) (or_empty (title row))
              (VStr (visited_utc k (raw_time row)))) as (_ & _ & Ht & Hu & Hd).
  split; [exact Hd|]. split.
  - eexists. split; [exact Ht | apply or_empty_truthy].
  - eexists. split; [exact Hu | apply visited_utc_empty_or_valid].
Qed.

Lemma visit_records_shape_witness :
  let r := visit_record chromium fixture_visit_2 in
  r ∈ fixture_visits_2
  /\ dom r = ({["id"; "url"; "title"; "utc"]} : gset string)
  /\ (exists t, r !! "title" = Some t /\ (t = VStr "" \/ truthy t = true))
  /\ (exists s, r !! "utc" = Some (VStr s) /\ (s = "" \/ Iso8601.valid s)).
Proof.
  cbv zeta.
  assert (Hin : visit_record chromium fixture_visit_2 ∈ fixture_visits_2)
    by (right; left).
  split; [exact Hin|].
  exact (visit_records_shape _ _ _ _ _ _ _ fixture_visits_2_run Hin).
Defined.








(** ** The callers: [upload] and [export_csv] *)

Lemma upload_limit_range (field : string) : 1 <= upload_limit field <= 100000.
Proof. unfold upload_limit. destruct (Py.int (VStr field)); lia. Qed.


Lemma detect_kind_fs (p : string) (fs fs' : Sqlite.filesystem) (r : result kind) :
  detect_kind p fs = (r, fs') ->
  (Sqlite.connect (connect_uri p) fs).2 = fs'.
Proof.
  unfold detect_kind.
  destruct (Sqlite.connect (connect_uri p) fs) as [c fs1]. now intros [= _ <-].
Qed.



(** [upload] (lines 300-302): a token is recorded only after detection and
    extraction succeeded, with the detected family; at most 100000 records
    are shown; an exception leaves [FILE_INDEX] as it was. *)
Theorem upload_registers (token path table_type field : string)
    (index index' : file_index) (fs fs' : Sqlite.filesystem)
    (r : result (list record)) :
  upload_core token path table_type field index fs = (r, index', fs') ->
  match r with
  | Ok rows =>
      Z.of_nat (length rows) <= 100000
      /\ exists k, (detect_kind path fs).1 = Ok k
                   /\ index' = <[token := mk_meta path k table_type]> index
  | Raise _ => index' = index
  end.
Proof.
  unfold upload_core.
  destruct (detect_kind path fs) as [[k|e] fs1] eqn:Ed.
  - destruct (query_rows path k table_type (VInt (upload_limit field)) fs1)
      as [[rows|e] fs2] eqn:Eq.
    + intros [= <- <- <-]. split; [|eauto].
      pose proof (upload_limit_range field) as Hl.
      pose proof (query_rows_count _ _ _ _ (upload_limit field) _ _ _
                    Eq eq_refl ltac:(lia)). lia.
    + intros [= <- <- <-]. reflexivity.
  - intros [= <- <- <-]. reflexivity.
Qed.


(** [export_csv] (lines 307-308): a token that was never recorded is
    answered with 404 and nothing is opened. *)
Theorem export_unknown_token (token other path table_type field : string)
    (index index' : file_index) (fs fs' : Sqlite.filesystem)
    (r : result (list record)) :
  index !! other = None -> other <> token ->
  upload_core token path table_type field index fs = (r, index', fs') ->
  forall fs2, export_csv other index' fs2 = (NotFound, fs2).
Proof.
  intros Hno Hne Hu fs2. unfold export_csv.
  assert (Hi : index' !! other = None).
  { unfold upload_core in Hu.
    destruct (detect_kind path fs) as [[k|e] fs1];
      [|injection Hu as _ <- _; exact Hno].
    destruct (query_rows path k table_type (VInt (upload_limit field)) fs1)
      as [[rows|e] fs3]; injection Hu as _ <- _; [|exact Hno].
    rewrite lookup_insert_ne by congruence. exact Hno. }
  now rewrite Hi.
Qed.

Lemma upload_registers_witness :
  fixture_upload
  = (Ok fixture_visits_2, <["tok" := mk_meta "History" chromium "urls"]> ∅,
     chromium_fixture)
  /\ Z.of_nat (length fixture_visits_2) <= 100000.
Proof.
  pose proof fixture_upload_run as E.
  split; [exact E|].
  exact (proj1 (upload_registers _ _ _ _ _ _ _ _ _ E)).
Defined.


Lemma export_unknown_token_witness :
  export_csv "nope" (<["tok" := mk_meta "History" chromium "urls"]> ∅) ∅
  = (NotFound, ∅).
Proof.
  pose proof fixture_upload_run as E.
  exact (export_unknown_token "tok" "nope" _ _ _ ∅ _ _ _ _ eq_refl
           ltac:(discriminate) E ∅).
Defined.

(** ** More on [detect_kind] *)

Lemma classify_ext (a b : gset string) :
  (forall n, n ∈ signature_names -> (n ∈ a <-> n ∈ b)) ->
  classify a = classify b.
Proof.
  intros H. unfold classify.
  assert (H2 : forall x y : string, x ∈ signature_names -> y ∈ signature_names ->
             bool_decide (({[x; y]} : gset string) ⊆ a)
             = bool_decide (({[x; y]} : gset string) ⊆ b)).
  { intros x y Hx Hy. apply bool_decide_ext.
    rewrite !union_subseteq, !singleton_subseteq_l.
    now rewrite (H x Hx), (H y Hy). }
  assert (Hd : "downloads" ∈ signature_names)
    by (unfold signature_names; rewrite !elem_of_cons; auto 10).
  rewrite !H2 by (unfold signature_names; rewrite !elem_of_cons; auto 10).
  rewrite (bool_decide_ext _ _ (H "downloads" Hd)).
  reflexivity.
Qed.

(** [detect_kind] (lines 47-52) depends only on which of the seven names
    it looks for are present, in any case of letters: tables with other
    names, their order and their columns do not change the family. *)
Theorem detect_kind_signature (p1 p2 : string)
    (fs1 fs1' fs2 fs2' : Sqlite.filesystem) (c1 c2 : Sqlite.connection)
    (ts1 ts2 : list Sqlite.table) :
  Sqlite.connect (connect_uri p1) fs1 = (Ok c1, fs1') ->
  Sqlite.c_file c1 = Sqlite.Database ts1 ->
  Sqlite.connect (connect_uri p2) fs2 = (Ok c2, fs2') ->
  Sqlite.c_file c2 = Sqlite.Database ts2 ->
  (forall n, n ∈ signature_names -> (has_table ts1 n <-> has_table ts2 n)) ->
  (detect_kind p1 fs1).1 = (detect_kind p2 fs2).1.
Proof.
  intros H1 F1 H2 F2 H.
  rewrite (detect_kind_opened _ _ _ _ _ H1 F1), (detect_kind_opened _ _ _ _ _ H2 F2).
  cbn [fst]. f_equal. apply classify_ext. intros n Hn.
  rewrite !elem_of_table_names. now apply H.
Qed.

Lemma has_table_existsb (ts : list Sqlite.table) (n : string) :
  has_table ts n
  <-> existsb (fun t => String.eqb (lower (Sqlite.t_name t)) n) ts = true.
Proof.
  unfold has_table. rewrite existsb_exists. split.
  - intros (t & Ht & Hl). exists t. split; [now apply list_elem_of_In|].
    now apply String.eqb_eq.
  - intros (t & Ht & Hl). exists t. split; [now apply list_elem_of_In|].
    now apply String.eqb_eq.
Qed.

Lemma detect_kind_signature_witness :
  (detect_kind "History" chromium_fixture).1
  = (detect_kind "Other" renamed_fixture).1.
Proof.
  eapply (detect_kind_signature "History" "Other" chromium_fixture _
            renamed_fixture _).
  - vm_compute. reflexivity.
  - reflexivity.
  - vm_compute. reflexivity.
  - reflexivity.
  - intros n Hn. rewrite !has_table_existsb.
    unfold signature_names in Hn. rewrite !elem_of_cons in Hn.
    repeat (destruct Hn as [->|Hn]; [vm_compute; tauto|]).
    now apply not_elem_of_nil in Hn.
Defined.

(** ** A file that lacks a table *)





Lemma query_utc_null_range_witness :
  Sqlite.in_int64 9223372036854775807 = true
  /\ query_utc (VInt 9223372036854775807) = VNone.
Proof.
  split; [reflexivity|].
  apply (proj2 (query_utc_null_range 9223372036854775807 eq_refl)).
  right. lia.
Defined.
